(** * Port & Logistics Disruption Forecaster: the scoring endpoint
      ([main.py]) and the daily ingestion job ([daily_refresh.py]).

    The two Python modules are embedded shallowly.  Python numbers are
    [num] values: an [int] is a [Z]; a finite [float] is the rational
    number it denotes, so comparisons against integer literals are
    exact, and every float operation returns the double nearest to the
    exact result ([Py.double], round to nearest, ties to even;
    overflow to infinity, beyond 2^1024, is left out).  Raising is a
    [result]; the job's log and store are threaded through a small
    state-and-exception monad. *)

From Stdlib Require Import ZArith QArith Qabs Qround Qpower Lia Lqa List.
From stdpp Require Import gmap strings pretty.

Open Scope string_scope.

(** ** Python numbers *)

Module Py.

Inductive num :=
| Int (n : Z)
| Float (x : Q).

Definition to_Q (v : num) : Q :=
  match v with
  | Int n => inject_Z n
  | Float x => x
  end.

(** Nearest integer to [y], ties to the even neighbour. *)
Definition round_half_even (y : Q) : Z :=
  let f := Qfloor y in
  match (y - inject_Z f ?= 1 # 2)%Q with
  | Lt => f
  | Gt => (f + 1)%Z
  | Eq => if Z.even f then f else (f + 1)%Z
  end.

Definition pow2 (e : Z) : Q := (2 ^ e)%Q.

(** For [q > 0], the [l] with [2^l <= q < 2^(l+1)]. *)
Definition floor_log2 (q : Q) : Z :=
  let l := (Z.log2 (Qnum q) - Z.log2 (Z.pos (Qden q)))%Z in
  if Qle_bool (pow2 l) q then l else (l - 1)%Z.

(** The exponent of the last place of the double nearest [q]: 53
    significant bits, and never below the subnormal step 2^-1074. *)
Definition exponent (q : Q) : Z :=
  Z.max (floor_log2 (Qabs q) - 52) (-1074).

(** The double nearest [q], ties to the even significand. *)
Definition double (q : Q) : Q :=
  let e := exponent q in
  (inject_Z (round_half_even (q / pow2 e)) * pow2 e)%Q.

(** [float(a)] *)
Definition to_float (a : num) : Q :=
  match a with
  | Int n => double (inject_Z n)
  | Float x => x
  end.

(** [a + b]: two ints give an int; otherwise an int operand is first
    converted and the float sum is rounded. *)
Definition add (a b : num) : num :=
  match a, b with
  | Int m, Int n => Int (m + n)%Z
  | _, _ => Float (double (to_float a + to_float b))
  end.

(** [a > k] for an integer literal [k]. *)
Definition gt (a : num) (k : Z) : bool :=
  negb (Qle_bool (to_Q a) (inject_Z k)).

(** [a / k] for a non-zero literal: true division, always a float,
    correctly rounded for an int as for a float. *)
Definition truediv (a : num) (k : Z) : num :=
  Float (double (to_Q a / inject_Z k)).

(** [int(a)]: truncation toward zero. *)
Definition int (a : num) : Z :=
  match a with
  | Int n => n
  | Float x => Z.quot (Qnum x) (Z.pos (Qden x))
  end.

(** [abs(a)] and [a * k]. *)
Definition abs (a : num) : num :=
  match a with
  | Int n => Int (Z.abs n)
  | Float x => Float (Qabs x)
  end.

Definition mul (a : num) (k : Z) : num :=
  match a with
  | Int n => Int (n * k)%Z
  | Float x => Float (double (x * inject_Z k))
  end.

(** [round(a, 1)]: an int is returned unchanged; a float is rounded to
    the nearest decimal with one digit, ties to even, and the result is
    the double nearest that decimal. *)
Definition round1 (a : num) : num :=
  match a with
  | Int n => Int n
  | Float x => Float (double (inject_Z (round_half_even (x * 10)%Q) / 10))
  end.

(** [str(a)] as an f-string field renders it.  An int is printed in
    decimal; the shortest-repr printing of a float is left to
    [float_repr]. *)
Definition str (float_repr : Q -> string) (a : num) : string :=
  match a with
  | Int n => pretty n
  | Float x => float_repr x
  end.

End Py.

(** ** Exceptions *)

Inductive exn :=
| NameError (name : string)
| AttributeError (attr : string)
| TypeError (msg : string)
| HTTPException (status : Z) (detail : string)
| OtherError (msg : string).

Inductive result (A : Type) :=
| Ok (a : A)
| Raise (e : exn).

Arguments Ok {A} a.
Arguments Raise {A} e.

#[global] Instance result_ret : MRet result := fun A a => Ok a.

#[global] Instance result_bind : MBind result := fun A B k m =>
  match m with
  | Ok a => k a
  | Raise e => Raise e
  end.

(** Reading a module-level name: a name the module never binds raises
    [NameError] at the point of use. *)
Definition resolve {A} (name : string) (binding : option A) : result A :=
  match binding with
  | Some a => Ok a
  | None => Raise (NameError name)
  end.


(** ** [main.py] *)

Module Main.

Record ForecastQuery := {
  ports : list string;
  horizon_days : Z;
  keywords : option (list string)
}.

Record ForecastSignal := {
  source : string;
  type : string;
  value : string;
  impact : Py.num
}.

Record ForecastResult := {
  port : string;
  country : string;
  disruption_risk_score : Py.num;
  risk_level : string;
  predicted_delay_days : option Z;
  confidence : Q;
  contributing_signals : list ForecastSignal;
  recommendations : list string
}.

Record Response := {
  forecasts : list ForecastResult;
  as_of : string
}.

(** What a source returns for a port: a dict of numbers. *)
Abbreviation dict := (gmap string Py.num).

(** [d.get(key, 0)]. *)
Definition get (d : dict) (key : string) : Py.num :=
  default (Py.Int 0) (d !! key).

(** The module-level names [forecast_disruption] reads, each with what
    it is bound to ([None]: the module binds no such name).
    [settings] stands for [settings.API_KEY], which is a text or
    Python's [None], and [datetime] for the text
    [datetime.datetime.utcnow().isoformat()] evaluates to. *)
Record Globals := {
  settings : option (option string);
  get_port_congestion : option (string -> result dict);
  get_gdelt_signals : option (string -> list string -> result dict);
  datetime : option string
}.

(** Lines 1-7 import [settings] and [get_port_congestion]; nothing in
    the file imports or defines [get_gdelt_signals] or [datetime]. *)
Definition module_globals (API_KEY : string)
    (congestion_source : string -> result dict) : Globals :=
  {| settings := Some (Some API_KEY);
     get_port_congestion := Some congestion_source;
     get_gdelt_signals := None;
     datetime := None |}.

(** Line 50. *)
Definition level_of (score : Py.num) : string :=
  if Py.gt score 60 then "High"
  else if Py.gt score 30 then "Medium"
  else "Low".

(** Line 57. *)
Definition delay_of (score : Py.num) : option Z :=
  if Py.gt score 20 then Some (Py.int (Py.truediv score 5)) else None.

(** Line 63. *)
Definition recommendations_of (score : Py.num) : list string :=
  if Py.gt score 50
  then ["Reroute via alternative port"; "Increase buffer stock"]
  else ["Monitor"].

(** Line 49. *)
Definition score_of (congestion gdelt_signals : dict) : Py.num :=
  Py.add (get congestion "risk") (get gdelt_signals "risk").

Section Endpoint.

Variable float_repr : Q -> string.

(** Lines 49-64: the result built for one port from the two source
    dicts. *)
Definition forecast_result (port : string)
    (congestion gdelt_signals : dict) : ForecastResult :=
  let score := score_of congestion gdelt_signals in
  let level := level_of score in
  {| port := port;
     country := "Unknown";
     disruption_risk_score := Py.round1 score;
     risk_level := level;
     predicted_delay_days := delay_of score;
     confidence := 85 # 100;
     contributing_signals :=
       [ {| source := "MarineTraffic";
            type := "Congestion";
            value := Py.str float_repr (get congestion "vessels_waiting")
                     ++ " vessels";
            impact := get congestion "risk" |} ];
     recommendations := recommendations_of score |}.

Variable G : Globals.

(** Lines 41-64: the loop over [query.ports], appending to [results]. *)
Fixpoint forecast_loop (query : ForecastQuery) (todo : list string)
    (results : list ForecastResult) : result (list ForecastResult) :=
  match todo with
  | [] => Ok results
  | port :: rest =>
      f ← resolve "get_port_congestion" (get_port_congestion G);
      congestion ← f port;
      g ← resolve "get_gdelt_signals" (get_gdelt_signals G);
      gdelt_signals ← g port (default [] (keywords query));
      forecast_loop query rest
        (results ++ [forecast_result port congestion gdelt_signals])
  end.

(** Lines 33-66.  [x_api_key] is [None] when the header is absent. *)
Definition forecast_disruption (query : ForecastQuery)
    (x_api_key : option string) : result Response :=
  key ← resolve "settings" (settings G);
  if bool_decide (x_api_key = key) then
    results ← forecast_loop query (ports query) [];
    now ← resolve "datetime" (datetime G);
    Ok {| forecasts := results; as_of := now ++ "Z" |}
  else Raise (HTTPException 401 "Invalid API key").

End Endpoint.

End Main.

(** ** Text: [str.lower] and the substring test [k in s] *)

Module Text.

Definition lower_char (c : Ascii.ascii) : Ascii.ascii :=
  let n := Ascii.nat_of_ascii c in
  if (65 <=? n)%nat && (n <=? 90)%nat
  then Ascii.ascii_of_nat (n + 32)
  else c.

Fixpoint lower (s : string) : string :=
  match s with
  | EmptyString => EmptyString
  | String c s' => String (lower_char c) (lower s')
  end.

(** [k in s]. *)
Fixpoint contains (k s : string) : bool :=
  String.prefix k s ||
  match s with
  | EmptyString => false
  | String _ s' => contains k s'
  end.

End Text.

(** ** [daily_refresh.py] *)

Module DailyRefresh.

(** A value held by a DataFrame cell or a record dict: a number, a
    text, or the float [nan] that [read_csv] puts in an empty cell. *)
Inductive cell :=
| Num (v : Py.num)
| Str (s : string)
| NaN.

(** A row of the frame [read_csv] returns with the eight [names] of
    line 84. *)
Record Row := {
  col_id : cell;
  col_sqldate : cell;
  col_country : cell;
  col_event_root : cell;
  col_goldstein : cell;
  col_location : cell;
  col_event_base : cell;
  col_source_url : cell
}.

Abbreviation record := (gmap string cell).

(** The rows of the table [port_disruption_signals], as the two
    mappings build them. *)
Record SignalRecord := {
  source : string;
  port_name : cell;
  country : cell;
  event_type : cell;
  description : string;
  event_date : string;
  impact_score : cell;
  raw_data : string
}.

(** A feed entry; [None] is a missing attribute. *)
Record Entry := {
  entry_title : option string;
  entry_summary : option string;
  entry_link : option string
}.

Inductive log_entry :=
| TableReady
| FetchingGdelt (url : string)
| GdeltLoaded (n : nat)
| GdeltFailed (e : exn)
| MarineTrafficExtracted (url : string) (n : nat)
| MarineTrafficFailed (url : string) (e : exn)
| InsertedGdelt (n : nat)
| InsertedMarineTraffic (n : nat)
| AcledStub
| RefreshComplete.

(** What the job's collaborators do during one run: the store, the
    network, the clock.  The clock is read anew for every signal
    (line 130): [now_isoformat url entry] is the text of the reading
    made while the signal for [entry] of the feed [url] is built,
    entries being told apart by their attributes.  The store answers
    an insert with [insert_dataframe]; the rows a refused batch leaves
    in the table all the same are [left_by_refused_insert], of which
    nothing is known. *)
Record World := {
  create_table_outcome : result unit;
  yesterday : string;
  gdelt_export : result (list Row);
  parse_rss : string -> result (list Entry);
  now_isoformat : string -> Entry -> string;
  insert_dataframe : list SignalRecord -> result unit;
  left_by_refused_insert : list SignalRecord -> list SignalRecord
}.

(** The one module-level name of [daily_refresh] whose binding is in
    question: [json.dumps]. *)
Record Globals := {
  json : option (record -> result string)
}.

(** Lines 15-25 import [datetime], [requests], [zipfile], [io],
    [logging], [pandas], [Client], [parse_rss], [typing], [os] and
    [load_dotenv]; [json] is not among them. *)
Definition module_globals : Globals := {| json := None |}.

(** *** The job's state: its log and the table it appends to *)

Record State := {
  log : list log_entry;
  table : list SignalRecord
}.

Definition M (A : Type) : Type := State -> result A * State.

#[global] Instance M_ret : MRet M := fun A a s => (Ok a, s).

#[global] Instance M_bind : MBind M := fun A B k m s =>
  match m s with
  | (Ok a, s') => k a s'
  | (Raise e, s') => (Raise e, s')
  end.

Definition lift {A} (r : result A) : M A := fun s => (r, s).

Definition logging (e : log_entry) : M unit := fun s =>
  (Ok tt, {| log := log s ++ [e]; table := table s |}).

(** [try: body / except Exception as e: handler e]. *)
Definition try_except {A} (body : M A) (handler : exn -> M A) : M A :=
  fun s =>
    match body s with
    | (Ok a, s') => (Ok a, s')
    | (Raise e, s') => handler e s'
    end.

(** *** GDELT *)

(** [Series.isin(values)] for a list of texts: a number equals no
    text, and neither does [nan]. *)
Definition isin (c : cell) (values : list string) : bool :=
  match c with
  | Str s => bool_decide (s ∈ values)
  | Num _ | NaN => false
  end.

(** One row of [df.to_dict(orient="records")]. *)
Definition to_dict (r : Row) : record :=
  list_to_map
    [ ("id", col_id r); ("sqldate", col_sqldate r);
      ("country", col_country r); ("event_root", col_event_root r);
      ("goldstein", col_goldstein r); ("location", col_location r);
      ("event_base", col_event_base r); ("source_url", col_source_url r) ].

(** Line 87. *)
Definition relevant (df : list Row) : list Row :=
  List.filter (fun r => isin (col_event_root r) ["14"; "18"]) df.

(** Lines 70-94. *)
Definition fetch_gdelt_yesterday (W : World) : M (list record) :=
  let url := "http://data.gdeltproject.org/events/" ++ yesterday W
             ++ ".export.CSV.zip" in
  logging (FetchingGdelt url);;
  try_except
    (df ← lift (gdelt_export W);
     let df := relevant df in
     let records := to_dict <$> df in
     logging (GdeltLoaded (length records));;
     mret records)
    (fun e => logging (GdeltFailed e);; mret []).

(** *** MarineTraffic *)

Definition shanghai_feed : string :=
  "https://www.marinetraffic.com/ais/index/rss?port=SHANGHAI".

Definition los_angeles_feed : string :=
  "https://www.marinetraffic.com/ais/index/rss?port=LOSANGELES".

(** Lines 101-105. *)
Definition feeds : list string := [shanghai_feed; los_angeles_feed].

Definition vocabulary : list string :=
  [ "congestion"; "delay"; "waiting"; "anchorage"; "queue"; "strike";
    "protest"; "blockade" ].

(** Lines 117-121. *)
Definition port_of (url : string) : string :=
  if Text.contains "shanghai" (Text.lower url) then "Shanghai"
  else if Text.contains "los angeles" (Text.lower url) then "Los Angeles"
  else "Unknown".

(** [entry.title], [entry.link]. *)
Definition attr (name : string) (field : option string) : result string :=
  match field with
  | Some v => Ok v
  | None => Raise (AttributeError name)
  end.

(** Line 116. *)
Definition mentions (title summary : string) : bool :=
  existsb (fun k => Text.contains k title || Text.contains k summary)
          vocabulary.

(** Lines 112-133: what one entry adds to [signals], if anything. *)
Definition entry_signal (W : World) (url : string) (entry : Entry)
    : result (option SignalRecord) :=
  raw_title ← attr "title" (entry_title entry);
  let raw_summary := default "" (entry_summary entry) in
  let title := Text.lower raw_title in
  let summary := Text.lower raw_summary in
  if mentions title summary then
    let port_name := port_of url in
    raw ← attr "link" (entry_link entry);
    mret (Some
      {| source := "MarineTraffic";
         port_name := Str port_name;
         country := Str "Unknown";
         event_type :=
           Str (if Text.contains "congestion" title
                then "Congestion" else "Disruption");
         description := raw_title ++ " - " ++ raw_summary;
         event_date := now_isoformat W url entry;
         impact_score :=
           Num (if Text.contains "congestion" title
                then Py.Float 25 else Py.Float 15);
         raw_data := raw |})
  else mret None.

(** Lines 111-133: the loop over a feed's entries.  [signals] is the
    list the loop appends to; it keeps what was appended before an
    entry raised. *)
Fixpoint scan_entries (W : World) (url : string) (entries : list Entry)
    (signals : list SignalRecord) : list SignalRecord * result unit :=
  match entries with
  | [] => (signals, Ok tt)
  | entry :: rest =>
      match entry_signal W url entry with
      | Raise e => (signals, Raise e)
      | Ok None => scan_entries W url rest signals
      | Ok (Some s) => scan_entries W url rest (signals ++ [s])
      end
  end.

(** Lines 109-136: one feed, inside its own [try]. *)
Definition scan_feed (W : World) (url : string)
    (signals : list SignalRecord) : M (list SignalRecord) :=
  match parse_rss W url with
  | Raise e => logging (MarineTrafficFailed url e);; mret signals
  | Ok entries =>
      let '(signals', outcome) :=
        scan_entries W url (take 20 entries) signals in
      match outcome with
      | Ok _ =>
          logging (MarineTrafficExtracted url (length signals'));;
          mret signals'
      | Raise e => logging (MarineTrafficFailed url e);; mret signals'
      end
  end.

Fixpoint scan_feeds (W : World) (urls : list string)
    (signals : list SignalRecord) : M (list SignalRecord) :=
  match urls with
  | [] => mret signals
  | url :: rest =>
      signals' ← scan_feed W url signals;
      scan_feeds W rest signals'
  end.

(** Lines 97-138. *)
Definition parse_marinetraffic_rss (W : World) : M (list SignalRecord) :=
  scan_feeds W feeds [].

(** What the two adapters return, their logging left aside. *)
Definition gdelt_records (W : World) : list record :=
  match gdelt_export W with
  | Ok df => to_dict <$> relevant df
  | Raise _ => []
  end.

Definition feed_signals (W : World) (signals : list SignalRecord)
    (url : string) : list SignalRecord :=
  match parse_rss W url with
  | Ok entries => (scan_entries W url (take 20 entries) signals).1
  | Raise _ => signals
  end.

Definition marinetraffic_signals (W : World) : list SignalRecord :=
  foldl (feed_signals W) [] feeds.

(** [entry] is among the entries the adapter reads from the feed [url]. *)
Definition scanned (W : World) (url : string) (entry : Entry) : Prop :=
  In url feeds /\
  exists entries, parse_rss W url = Ok entries /\ In entry (take 20 entries).

(** The keyword [k] occurs in the lowered title or summary of [entry]. *)
Definition keyword_in (k : string) (entry : Entry) : Prop :=
  exists t,
    entry_title entry = Some t /\
    (Text.contains k (Text.lower t) = true \/
     Text.contains k (Text.lower (default "" (entry_summary entry))) = true).

(** *** The refresh *)

Section Refresh.

Variable float_repr : Q -> string.
Variable G : Globals.

(** [str(c)]. *)
Definition str (c : cell) : string :=
  match c with
  | Num v => Py.str float_repr v
  | Str s => s
  | NaN => "nan"
  end.

(** [{r.get(key)}] inside an f-string: a missing key prints [None]. *)
Definition fmt (r : record) (key : string) : string :=
  match r !! key with
  | Some c => str c
  | None => "None"
  end.

(** [abs(c)]: defined on numbers only; [abs(nan)] is [nan]. *)
Definition abs (c : cell) : result cell :=
  match c with
  | Num v => Ok (Num (Py.abs v))
  | NaN => Ok NaN
  | Str _ => Raise (TypeError "bad operand type for abs(): 'str'")
  end.

(** [c * k] for a positive literal [k]: a text is repeated, and
    [nan * k] is [nan]. *)
Definition mul (c : cell) (k : Z) : cell :=
  match c with
  | Num v => Num (Py.mul v k)
  | NaN => NaN
  | Str s => Str (Nat.iter (Z.to_nat k) (String.append s) "")
  end.

(** Line 158: [abs(r.get("goldstein", 0)) * 5]. *)
Definition gdelt_impact (r : record) : result cell :=
  a ← abs (default (Num (Py.Int 0)) (r !! "goldstein"));
  mret (mul a 5).

(** Lines 151-160: the dict built for one GDELT record; its values
    are evaluated in the order they are written. *)
Definition map_record (r : record) : result SignalRecord :=
  let port_name := default (Str "Unknown") (r !! "location") in
  let country := default (Str "Unknown") (r !! "country") in
  let event_type := default (Str "Unknown") (r !! "event_root") in
  let description :=
    "Event ID " ++ fmt r "id" ++ ", Goldstein " ++ fmt r "goldstein" in
  let event_date := str (default (Str "") (r !! "sqldate")) in
  impact ← gdelt_impact r;
  dumps ← resolve "json" (json G);
  raw ← dumps r;
  mret {| source := "GDELT";
          port_name := port_name;
          country := country;
          event_type := event_type;
          description := description;
          event_date := event_date;
          impact_score := impact;
          raw_data := raw |}.

(** [client.insert_dataframe(..., pd.DataFrame(batch))]: an accepted
    batch is appended to the table; what a refused batch leaves there
    is up to the store. *)
Definition insert (W : World) (batch : list SignalRecord) : M unit :=
  fun s =>
    match insert_dataframe W batch with
    | Ok _ => (Ok tt, {| log := log s; table := table s ++ batch |})
    | Raise e =>
        (Raise e,
         {| log := log s;
            table := table s ++ left_by_refused_insert W batch |})
    end.

(** Lines 141-173. *)
Definition daily_refresh (W : World) : M unit :=
  lift (create_table_outcome W);;
  logging TableReady;;
  gdelt_records ← fetch_gdelt_yesterday W;
  match gdelt_records with
  | [] => mret tt
  | _ :: _ =>
      mapped ← lift (mapM map_record gdelt_records);
      insert W mapped;;
      logging (InsertedGdelt (length mapped))
  end;;
  mt_signals ← parse_marinetraffic_rss W;
  match mt_signals with
  | [] => mret tt
  | _ :: _ =>
      insert W mt_signals;;
      logging (InsertedMarineTraffic (length mt_signals))
  end;;
  logging AcledStub;;
  logging RefreshComplete.

End Refresh.

End DailyRefresh.

(** ** Sample runs *)

Module Sample.

Import DailyRefresh.

Definition float_repr (x : Q) : string := "0.0".

Definition row (code : cell) : Row :=
  {| col_id := Num (Py.Int 1);
     col_sqldate := Num (Py.Int 20261103);
     col_country := Str "USA";
     col_event_root := code;
     col_goldstein := Num (Py.Float (-65 # 10));
     col_location := Str "Los Angeles, California, United States";
     col_event_base := Str "141";
     col_source_url := Str "http://example.org/a" |}.

Definition congestion_entry : Entry :=
  {| entry_title := Some "Heavy Congestion at anchorage";
     entry_summary := None;
     entry_link := Some "http://example.org/1" |}.

Definition strike_entry : Entry :=
  {| entry_title := Some "Dock workers STRIKE";
     entry_summary := Some "";
     entry_link := Some "http://example.org/3" |}.

Definition arrival_entry : Entry :=
  {| entry_title := Some "Vessel arrived";
     entry_summary := Some "Nothing to report";
     entry_link := Some "http://example.org/2" |}.

(** Both feeds answer with the same three entries. *)
Definition rss (url : string) : result (list Entry) :=
  Ok [congestion_entry; arrival_entry; strike_entry].

(** The GDELT download fails; the store and the feeds work. *)
Definition world : World :=
  {| create_table_outcome := Ok tt;
     yesterday := "20261103";
     gdelt_export := Raise (OtherError "timed out");
     parse_rss := rss;
     now_isoformat := fun _ _ => "2026-11-04T06:00:00";
     insert_dataframe := fun _ => Ok tt;
     left_by_refused_insert := fun _ => [] |}.

(** The store cannot be reached. *)
Definition world_store_down : World :=
  {| create_table_outcome := Raise (OtherError "connection refused");
     yesterday := "20261103";
     gdelt_export := Raise (OtherError "timed out");
     parse_rss := rss;
     now_isoformat := fun _ _ => "2026-11-04T06:00:00";
     insert_dataframe := fun _ => Raise (OtherError "connection refused");
     left_by_refused_insert := fun _ => [] |}.

(** The export holds one row, with the event-root cell [code]. *)
Definition world_gdelt (code : cell) : World :=
  {| create_table_outcome := Ok tt;
     yesterday := "20261103";
     gdelt_export := Ok [row code];
     parse_rss := rss;
     now_isoformat := fun _ _ => "2026-11-04T06:00:00";
     insert_dataframe := fun _ => Ok tt;
     left_by_refused_insert := fun _ => [] |}.

Definition start : State := {| log := []; table := [] |}.

Definition congestion_signal (port : string) : SignalRecord :=
  {| source := "MarineTraffic";
     port_name := Str port;
     country := Str "Unknown";
     event_type := Str "Congestion";
     description := "Heavy Congestion at anchorage - ";
     event_date := "2026-11-04T06:00:00";
     impact_score := Num (Py.Float 25);
     raw_data := "http://example.org/1" |}.

Definition strike_signal (port : string) : SignalRecord :=
  {| source := "MarineTraffic";
     port_name := Str port;
     country := Str "Unknown";
     event_type := Str "Disruption";
     description := "Dock workers STRIKE - ";
     event_date := "2026-11-04T06:00:00";
     impact_score := Num (Py.Float 15);
     raw_data := "http://example.org/3" |}.

(** A module namespace for [main.py] in which every name the endpoint
    reads is bound: the congestion source reports a risk of 25 and three
    waiting vessels, the GDELT source a risk of 35.5. *)
Definition bound_globals : Main.Globals :=
  {| Main.settings := Some (Some "secret");
     Main.get_port_congestion :=
       Some (fun _ => Ok {[ "risk" := Py.Int 25;
                            "vessels_waiting" := Py.Int 3 ]});
     Main.get_gdelt_signals :=
       Some (fun _ _ => Ok {[ "risk" := Py.Float (355 # 10) ]});
     Main.datetime := Some "2026-11-04T06:00:00" |}.


Definition query (ports : list string) : Main.ForecastQuery :=
  {| Main.ports := ports; Main.horizon_days := 30; Main.keywords := None |}.

(** An entry without a title, and a matching entry without a link. *)
Definition untitled_entry : Entry :=
  {| entry_title := None;
     entry_summary := Some "port congestion";
     entry_link := Some "http://example.org/4" |}.

(** Nothing comes in: the download fails, the feeds hold one entry
    without any keyword, and every insert would fail. *)
Definition world_quiet : World :=
  {| create_table_outcome := Ok tt;
     yesterday := "20261103";
     gdelt_export := Raise (OtherError "timed out");
     parse_rss := fun _ => Ok [arrival_entry];
     now_isoformat := fun _ _ => "2026-11-04T06:00:00";
     insert_dataframe := fun _ => Raise (OtherError "read-only");
     left_by_refused_insert := fun _ => [] |}.

(** The feeds answer with a signal, an untitled entry, and a second
    signal. *)
Definition world_untitled : World :=
  {| create_table_outcome := Ok tt;
     yesterday := "20261103";
     gdelt_export := Raise (OtherError "timed out");
     parse_rss := fun _ => Ok [congestion_entry; untitled_entry; strike_entry];
     now_isoformat := fun _ _ => "2026-11-04T06:00:00";
     insert_dataframe := fun _ => Ok tt;
     left_by_refused_insert := fun _ => [] |}.

(** The feeds deliver signals, but the store refuses every insert. *)
Definition world_read_only : World :=
  {| create_table_outcome := Ok tt;
     yesterday := "20261103";
     gdelt_export := Raise (OtherError "timed out");
     parse_rss := rss;
     now_isoformat := fun _ _ => "2026-11-04T06:00:00";
     insert_dataframe := fun _ => Raise (OtherError "read-only");
     left_by_refused_insert := fun _ => [] |}.

(** A matching entry without a link. *)
Definition unlinked_entry : Entry :=
  {| entry_title := Some "Blockade at the terminal";
     entry_summary := None;
     entry_link := None |}.

(** A namespace for [daily_refresh.py] in which [json] is bound. *)
Definition json_globals : Globals :=
  {| json := Some (fun _ => Ok "{}") |}.

End Sample.

(** * Properties *)

(** ** Numbers *)

Lemma gt_spec (a : Py.num) (k : Z) :
  Py.gt a k = true <-> (inject_Z k < Py.to_Q a)%Q.
Proof.
  unfold Py.gt. rewrite negb_true_iff.
  destruct (Qle_bool (Py.to_Q a) (inject_Z k)) eqn:E.
  - apply Qle_bool_iff in E. split; [discriminate | intros H; exfalso; lra].
  - split; [intros _ | reflexivity].
    apply Qnot_le_lt. intros H. apply Qle_bool_iff in H. congruence.
Qed.

Lemma gt_false_spec (a : Py.num) (k : Z) :
  Py.gt a k = false <-> (Py.to_Q a <= inject_Z k)%Q.
Proof.
  destruct (Py.gt a k) eqn:E.
  - apply gt_spec in E. split; [discriminate | intros H; exfalso; lra].
  - split; [intros _ | reflexivity].
    apply Qnot_lt_le. intros H. apply gt_spec in H. congruence.
Qed.

(** Truncation and floor agree on a non-negative float. *)
Lemma int_floor_nonneg (x : Q) :
  (0 <= x)%Q -> Py.int (Py.Float x) = Qfloor x.
Proof.
  destruct x as [n d]. unfold Qle. simpl. intros H.
  apply Z.quot_div_nonneg; lia.
Qed.

(** *** Powers of two *)

Lemma pow2_pos (e : Z) : (0 < Py.pow2 e)%Q.
Proof. apply Qpower_0_lt. reflexivity. Qed.

Lemma pow2_add (a b : Z) : (Py.pow2 (a + b) == Py.pow2 a * Py.pow2 b)%Q.
Proof. apply Qpower_plus. discriminate. Qed.

Lemma pow2_sub (a b : Z) : (Py.pow2 (a - b) == Py.pow2 a / Py.pow2 b)%Q.
Proof. apply Qpower_minus. discriminate. Qed.

Lemma pow2_le (a b : Z) : (a <= b)%Z -> (Py.pow2 a <= Py.pow2 b)%Q.
Proof. intros H. apply Qpower_le_compat_l; [exact H | discriminate]. Qed.

Lemma pow2_lt (a b : Z) : (a < b)%Z -> (Py.pow2 a < Py.pow2 b)%Q.
Proof. intros H. apply Qpower_lt_compat_l; [exact H | reflexivity]. Qed.

Lemma pow2_Z (n : Z) : (0 <= n)%Z -> (Py.pow2 n == inject_Z (2 ^ n))%Q.
Proof. intros H. unfold Py.pow2. now rewrite Zpower_Qpower. Qed.

(** Scaling by a power of two and back. *)
Lemma scale_back (q : Q) (e : Z) : (q / Py.pow2 e * Py.pow2 e == q)%Q.
Proof.
  field. intros H. pose proof (pow2_pos e) as P.
  unfold Py.pow2 in P. rewrite H in P. discriminate.
Qed.

Lemma scale_le (x y : Q) (e : Z) :
  (x <= y)%Q -> (x / Py.pow2 e <= y / Py.pow2 e)%Q.
Proof.
  intros H. unfold Qdiv. apply Qmult_le_compat_r; [exact H |].
  apply Qlt_le_weak, Qinv_lt_0_compat, pow2_pos.
Qed.

(** *** Rounding to an integer *)

Lemma round_half_even_Z (n : Z) : Py.round_half_even (inject_Z n) = n.
Proof.
  unfold Py.round_half_even. rewrite Qfloor_Z.
  assert (C : (inject_Z n - inject_Z n ?= 1 # 2)%Q = Lt).
  { rewrite <- Qlt_alt. ring_simplify (inject_Z n - inject_Z n)%Q. reflexivity. }
  now rewrite C.
Qed.

Lemma round_half_even_range (y : Q) :
  Py.round_half_even y = Qfloor y \/
  (Py.round_half_even y = (Qfloor y + 1)%Z /\ (1 # 2 <= y - inject_Z (Qfloor y))%Q).
Proof.
  unfold Py.round_half_even.
  destruct (Qcompare_spec (y - inject_Z (Qfloor y)) (1 # 2)) as [He | Hl | Hg].
  - destruct (Z.even (Qfloor y)); [now left | right; split; [reflexivity | lra]].
  - now left.
  - right. split; [reflexivity | lra].
Qed.

Lemma round_half_even_mono (x y : Q) :
  (x <= y)%Q -> (Py.round_half_even x <= Py.round_half_even y)%Z.
Proof.
  intros Hle.
  pose proof (Qfloor_resp_le x y Hle) as Hf.
  destruct (Z.eq_dec (Qfloor x) (Qfloor y)) as [Heq | Hne].
  - unfold Py.round_half_even. rewrite Heq.
    assert (Hfrac : (x - inject_Z (Qfloor y) <= y - inject_Z (Qfloor y))%Q) by lra.
    destruct (Qcompare_spec (x - inject_Z (Qfloor y)) (1 # 2)) as [Hx | Hx | Hx];
      destruct (Qcompare_spec (y - inject_Z (Qfloor y)) (1 # 2)) as [Hy | Hy | Hy];
      try destruct (Z.even (Qfloor y)); try lia; exfalso; lra.
  - assert (Hlt : (Qfloor x + 1 <= Qfloor y)%Z) by lia.
    assert (Hx : (Py.round_half_even x <= Qfloor x + 1)%Z).
    { destruct (round_half_even_range x) as [-> | [-> _]]; lia. }
    assert (Hy : (Qfloor y <= Py.round_half_even y)%Z).
    { destruct (round_half_even_range y) as [-> | [-> _]]; lia. }
    lia.
Qed.

Lemma round_half_even_close (y : Q) :
  (Qabs (inject_Z (Py.round_half_even y) - y) <= 1 # 2)%Q.
Proof.
  pose proof (Qfloor_le y) as Hlo. pose proof (Qlt_floor y) as Hhi.
  rewrite inject_Z_plus in Hhi. change (inject_Z 1) with 1%Q in Hhi.
  unfold Py.round_half_even.
  apply Qabs_Qle_condition.
  destruct (Qcompare_spec (y - inject_Z (Qfloor y)) (1 # 2)) as [He | Hl | Hg].
  - destruct (Z.even (Qfloor y)).
    + split; lra.
    + rewrite inject_Z_plus. change (inject_Z 1) with 1%Q. split; lra.
  - split; lra.
  - rewrite inject_Z_plus. change (inject_Z 1) with 1%Q. split; lra.
Qed.

(** *** The binary exponent *)

Lemma Zfrac_lt (a b X Y : Z) :
  (0 < b)%Z -> (0 < Y)%Z -> (a * Y < X * b)%Z ->
  (inject_Z a / inject_Z b < inject_Z X / inject_Z Y)%Q.
Proof.
  intros Hb HY H.
  assert (Hb' : (0 < inject_Z b)%Q) by (now rewrite <- (Zlt_Qlt 0)).
  assert (HY' : (0 < inject_Z Y)%Q) by (now rewrite <- (Zlt_Qlt 0)).
  apply Qlt_shift_div_l; [exact HY' |].
  assert (E : (inject_Z a / inject_Z b * inject_Z Y
               == inject_Z a * inject_Z Y / inject_Z b)%Q) by (field; lra).
  rewrite E. apply Qlt_shift_div_r; [exact Hb' |].
  rewrite <- !inject_Z_mult, <- Zlt_Qlt. exact H.
Qed.

Lemma Zfrac_le (a b X Y : Z) :
  (0 < b)%Z -> (0 < Y)%Z -> (a * Y <= X * b)%Z ->
  (inject_Z a / inject_Z b <= inject_Z X / inject_Z Y)%Q.
Proof.
  intros Hb HY H.
  assert (Hb' : (0 < inject_Z b)%Q) by (now rewrite <- (Zlt_Qlt 0)).
  assert (HY' : (0 < inject_Z Y)%Q) by (now rewrite <- (Zlt_Qlt 0)).
  apply Qle_shift_div_l; [exact HY' |].
  assert (E : (inject_Z a / inject_Z b * inject_Z Y
               == inject_Z a * inject_Z Y / inject_Z b)%Q) by (field; lra).
  rewrite E. apply Qle_shift_div_r; [exact Hb' |].
  rewrite <- !inject_Z_mult, <- Zle_Qle. exact H.
Qed.

Lemma log2_window (q : Q) :
  (0 < q)%Q ->
  (Py.pow2 (Z.log2 (Qnum q) - Z.log2 (Z.pos (Qden q)) - 1) <= q)%Q /\
  (q < Py.pow2 (Z.log2 (Qnum q) - Z.log2 (Z.pos (Qden q)) + 1))%Q.
Proof.
  destruct q as [a b]. intros Hq. cbn [Qnum Qden].
  assert (Ha : (0 < a)%Z).
  { unfold Qlt in Hq. simpl in Hq. lia. }
  set (la := Z.log2 a). set (lb := Z.log2 (Z.pos b)).
  assert (Hla : (0 <= la)%Z) by apply Z.log2_nonneg.
  assert (Hlb : (0 <= lb)%Z) by apply Z.log2_nonneg.
  destruct (Z.log2_spec a Ha) as [Ha1 Ha2]. fold la in Ha1, Ha2.
  destruct (Z.log2_spec (Z.pos b) (Pos2Z.is_pos b)) as [Hb1 Hb2].
  fold lb in Hb1, Hb2.
  assert (Pa : (0 < 2 ^ la)%Z) by (apply Z.pow_pos_nonneg; lia).
  assert (Pb : (0 < 2 ^ lb)%Z) by (apply Z.pow_pos_nonneg; lia).
  assert (Eq : (a # b == inject_Z a / inject_Z (Z.pos b))%Q).
  { apply Qmake_Qdiv. }
  split.
  - replace (la - lb - 1)%Z with (la - (lb + 1))%Z by lia.
    rewrite pow2_sub, !pow2_Z by lia. rewrite Eq.
    apply Zfrac_le; [apply Z.pow_pos_nonneg; lia | lia |].
    replace (lb + 1)%Z with (Z.succ lb) by lia. nia.
  - replace (la - lb + 1)%Z with (la + 1 - lb)%Z by lia.
    rewrite pow2_sub, !pow2_Z by lia. rewrite Eq.
    apply Zfrac_lt; [lia | exact Pb |].
    replace (la + 1)%Z with (Z.succ la) by lia. nia.
Qed.

Lemma floor_log2_spec (q : Q) :
  (0 < q)%Q ->
  (Py.pow2 (Py.floor_log2 q) <= q)%Q /\
  (q < Py.pow2 (Py.floor_log2 q + 1))%Q.
Proof.
  intros Hq. destruct (log2_window q Hq) as [Hlo Hhi].
  unfold Py.floor_log2.
  set (l := (Z.log2 (Qnum q) - Z.log2 (Z.pos (Qden q)))%Z) in *.
  destruct (Qle_bool (Py.pow2 l) q) eqn:E.
  - apply Qle_bool_iff in E. now split.
  - split; [exact Hlo |].
    replace (l - 1 + 1)%Z with l by lia.
    apply Qnot_le_lt. intros H. apply Qle_bool_iff in H. congruence.
Qed.

Lemma floor_log2_unique (q : Q) (l : Z) :
  (Py.pow2 l <= q)%Q -> (q < Py.pow2 (l + 1))%Q -> Py.floor_log2 q = l.
Proof.
  intros Hlo Hhi.
  assert (Hq : (0 < q)%Q) by (pose proof (pow2_pos l); lra).
  destruct (floor_log2_spec q Hq) as [Flo Fhi].
  destruct (Z.lt_trichotomy (Py.floor_log2 q) l) as [Hlt | [Heq | Hgt]];
    [exfalso | exact Heq | exfalso].
  - assert (Py.pow2 (Py.floor_log2 q + 1) <= Py.pow2 l)%Q by (apply pow2_le; lia).
    lra.
  - assert (Py.pow2 (l + 1) <= Py.pow2 (Py.floor_log2 q))%Q by (apply pow2_le; lia).
    lra.
Qed.

Lemma floor_log2_mono (x y : Q) :
  (0 < x)%Q -> (x <= y)%Q -> (Py.floor_log2 x <= Py.floor_log2 y)%Z.
Proof.
  intros Hx Hxy.
  destruct (floor_log2_spec x Hx) as [Xlo Xhi].
  destruct (floor_log2_spec y) as [Ylo Yhi]; [lra |].
  destruct (Z_le_gt_dec (Py.floor_log2 x) (Py.floor_log2 y)) as [H | H];
    [exact H | exfalso].
  assert (Py.pow2 (Py.floor_log2 y + 1) <= Py.pow2 (Py.floor_log2 x))%Q
    by (apply pow2_le; lia).
  lra.
Qed.

Lemma floor_log2_Qeq (x y : Q) :
  (0 < x)%Q -> (x == y)%Q -> Py.floor_log2 x = Py.floor_log2 y.
Proof.
  intros Hx E. destruct (floor_log2_spec x Hx) as [Lo Hi].
  symmetry. apply floor_log2_unique; rewrite <- E; assumption.
Qed.

Lemma exponent_pos (q : Q) :
  (0 < q)%Q -> Py.exponent q = Z.max (Py.floor_log2 q - 52) (-1074).
Proof.
  intros Hq. unfold Py.exponent.
  rewrite (floor_log2_Qeq (Qabs q) q); [reflexivity | |].
  - rewrite Qabs_pos; lra.
  - apply Qabs_pos. lra.
Qed.

(** *** The nearest double *)

Lemma double_0 (q : Q) : (q == 0)%Q -> (Py.double q == 0)%Q.
Proof.
  intros H. unfold Py.double.
  assert (E : (q / Py.pow2 (Py.exponent q) == 0)%Q).
  { transitivity (0 / Py.pow2 (Py.exponent q))%Q;
      [apply Qdiv_comp; [exact H | reflexivity] | reflexivity]. }
  assert (R : Py.round_half_even (q / Py.pow2 (Py.exponent q)) = 0%Z).
  { assert (H1 : (q / Py.pow2 (Py.exponent q) <= inject_Z 0)%Q)
      by (rewrite E; apply Qle_refl).
    assert (H2 : (inject_Z 0 <= q / Py.pow2 (Py.exponent q))%Q)
      by (rewrite E; apply Qle_refl).
    apply round_half_even_mono in H1, H2.
    rewrite round_half_even_Z in H1, H2. lia. }
  rewrite R. ring.
Qed.

Lemma double_nonneg (q : Q) : (0 <= q)%Q -> (0 <= Py.double q)%Q.
Proof.
  intros H. unfold Py.double.
  apply Qmult_le_0_compat; [| apply Qlt_le_weak, pow2_pos].
  change 0%Q with (inject_Z 0). rewrite <- Zle_Qle.
  rewrite <- (round_half_even_Z 0). apply round_half_even_mono.
  change (inject_Z 0) with 0%Q.
  apply Qle_shift_div_l; [apply pow2_pos | lra].
Qed.

(** Rounding is within half a unit in the last place. *)
Lemma double_error (q : Q) :
  (Qabs (Py.double q - q) <= Py.pow2 (Py.exponent q) / 2)%Q.
Proof.
  unfold Py.double. set (e := Py.exponent q).
  pose proof (pow2_pos e) as P.
  pose proof (round_half_even_close (q / Py.pow2 e)) as H.
  set (m := inject_Z (Py.round_half_even (q / Py.pow2 e))) in *.
  apply Qabs_Qle_condition in H. destruct H as [H1 H2].
  apply Qabs_Qle_condition.
  assert (E : (q == q / Py.pow2 e * Py.pow2 e)%Q) by (now rewrite scale_back).
  set (t := (q / Py.pow2 e)%Q) in *.
  assert (L : ((m - t) * Py.pow2 e <= (1 # 2) * Py.pow2 e)%Q).
  { apply Qmult_le_compat_r; lra. }
  assert (U : ((- (1 # 2)) * Py.pow2 e <= (m - t) * Py.pow2 e)%Q).
  { apply Qmult_le_compat_r; lra. }
  assert (Eh : (Py.pow2 e / 2 == (1 # 2) * Py.pow2 e)%Q) by field.
  rewrite Eh. split; lra.
Qed.

Lemma double_mono_pos (x y : Q) :
  (0 < x)%Q -> (x <= y)%Q -> (Py.double x <= Py.double y)%Q.
Proof.
  intros Hx Hxy. assert (Hy : (0 < y)%Q) by lra.
  unfold Py.double. rewrite !exponent_pos by assumption.
  pose proof (floor_log2_mono x y Hx Hxy) as Hl.
  destruct (floor_log2_spec x Hx) as [Xlo Xhi].
  destruct (floor_log2_spec y Hy) as [Ylo Yhi].
  set (lx := Py.floor_log2 x) in *. set (ly := Py.floor_log2 y) in *.
  set (ex := Z.max (lx - 52) (-1074)). set (ey := Z.max (ly - 52) (-1074)).
  destruct (Z.eq_dec ex ey) as [Heq | Hne].
  - rewrite Heq. apply Qmult_le_compat_r; [| apply Qlt_le_weak, pow2_pos].
    rewrite <- Zle_Qle. apply round_half_even_mono. now apply scale_le.
  - assert (Hex : (ex < ey)%Z) by lia.
    assert (Hey : ey = (ly - 52)%Z) by lia.
    assert (Hlx : (lx + 1 <= ly)%Z) by lia.
    (* both sides meet at 2^ly *)
    apply Qle_trans with (Py.pow2 ly).
    + assert (Hn : (0 <= ly - ex)%Z) by lia.
      assert (Hr : (Py.round_half_even (x / Py.pow2 ex) <= 2 ^ (ly - ex))%Z).
      { rewrite <- (round_half_even_Z (2 ^ (ly - ex))).
        apply round_half_even_mono.
        rewrite <- pow2_Z by exact Hn. rewrite pow2_sub.
        apply scale_le.
        assert (Py.pow2 (lx + 1) <= Py.pow2 ly)%Q by (now apply pow2_le).
        lra. }
      rewrite Zle_Qle in Hr. rewrite <- pow2_Z in Hr by exact Hn.
      assert (Ely : (Py.pow2 ly == Py.pow2 (ly - ex) * Py.pow2 ex)%Q)
        by (rewrite <- pow2_add; now replace (ly - ex + ex)%Z with ly by lia).
      rewrite Ely.
      apply Qmult_le_compat_r; [exact Hr | apply Qlt_le_weak, pow2_pos].
    + assert (Hr : (2 ^ 52 <= Py.round_half_even (y / Py.pow2 ey))%Z).
      { rewrite <- (round_half_even_Z (2 ^ 52)).
        apply round_half_even_mono.
        rewrite <- pow2_Z by lia.
        replace 52%Z with (ly - ey)%Z by lia. rewrite pow2_sub.
        now apply scale_le. }
      rewrite Zle_Qle in Hr. rewrite <- pow2_Z in Hr by lia.
      assert (Ely : (Py.pow2 ly == Py.pow2 52 * Py.pow2 ey)%Q)
        by (rewrite <- pow2_add; now replace (52 + ey)%Z with ly by lia).
      rewrite Ely.
      apply Qmult_le_compat_r; [exact Hr | apply Qlt_le_weak, pow2_pos].
Qed.

Lemma double_mono (x y : Q) :
  (0 <= x)%Q -> (x <= y)%Q -> (Py.double x <= Py.double y)%Q.
Proof.
  intros Hx Hxy. destruct (Qlt_le_dec 0 x) as [Hpos | Hzero].
  - now apply double_mono_pos.
  - rewrite (double_0 x) by lra. apply double_nonneg. lra.
Qed.

Lemma round_half_even_Qeq (x y : Q) :
  (x == y)%Q -> Py.round_half_even x = Py.round_half_even y.
Proof.
  intros E.
  assert (H1 : (x <= y)%Q) by (rewrite E; apply Qle_refl).
  assert (H2 : (y <= x)%Q) by (rewrite E; apply Qle_refl).
  apply round_half_even_mono in H1, H2. lia.
Qed.

Lemma floor_log2_lt (q : Q) (n : Z) :
  (0 < q)%Q -> (q < Py.pow2 n)%Q -> (Py.floor_log2 q < n)%Z.
Proof.
  intros Hq Hn. destruct (floor_log2_spec q Hq) as [Lo _].
  destruct (Z_lt_ge_dec (Py.floor_log2 q) n) as [H | H]; [exact H | exfalso].
  assert (Py.pow2 n <= Py.pow2 (Py.floor_log2 q))%Q by (apply pow2_le; lia).
  lra.
Qed.

Lemma floor_log2_ge (q : Q) (n : Z) :
  (Py.pow2 n <= q)%Q -> (n <= Py.floor_log2 q)%Z.
Proof.
  intros Hn.
  assert (Hq : (0 < q)%Q) by (pose proof (pow2_pos n); lra).
  destruct (floor_log2_spec q Hq) as [_ Hi].
  destruct (Z_le_gt_dec n (Py.floor_log2 q)) as [H | H]; [exact H | exfalso].
  assert (Py.pow2 (Py.floor_log2 q + 1) <= Py.pow2 n)%Q by (apply pow2_le; lia).
  lra.
Qed.

(** A value on the grid of its own last place is its own double. *)
Lemma double_on_grid (q : Q) (k : Z) :
  (q == inject_Z k * Py.pow2 (Py.exponent q))%Q -> (Py.double q == q)%Q.
Proof.
  intros E. unfold Py.double.
  assert (T : (q / Py.pow2 (Py.exponent q) == inject_Z k)%Q).
  { pose proof (pow2_pos (Py.exponent q)) as P.
    apply Qmult_inj_r with (Py.pow2 (Py.exponent q)); [lra |].
    rewrite scale_back. exact E. }
  rewrite (round_half_even_Qeq _ _ T), round_half_even_Z. now symmetry.
Qed.

(** Integers below 2^53 are doubles. *)
Lemma double_Z (n : Z) :
  (0 <= n < 2 ^ 53)%Z -> (Py.double (inject_Z n) == inject_Z n)%Q.
Proof.
  intros [Hlo Hhi].
  destruct (Z.eq_dec n 0%Z) as [-> | Hne]; [now apply double_0 |].
  assert (Hq : (0 < inject_Z n)%Q) by (rewrite <- (Zlt_Qlt 0); lia).
  assert (Hl : (Py.floor_log2 (inject_Z n) < 53)%Z).
  { apply floor_log2_lt; [exact Hq |].
    rewrite pow2_Z by lia. now rewrite <- Zlt_Qlt. }
  assert (He : (Py.exponent (inject_Z n) <= 0)%Z).
  { rewrite exponent_pos by exact Hq. lia. }
  apply (double_on_grid _ (n * 2 ^ (- Py.exponent (inject_Z n)))).
  set (e := Py.exponent (inject_Z n)) in *.
  rewrite inject_Z_mult, <- pow2_Z by lia.
  rewrite <- Qmult_assoc, <- pow2_add.
  replace (- e + e)%Z with 0%Z by lia. change (Py.pow2 0) with 1%Q. ring.
Qed.

(** Dividing a double below 2^53 by five and truncating gives the exact
    floor: the rounding of the quotient never reaches the next integer. *)
Lemma double_div5_floor (x : Q) :
  (Py.double x == x)%Q -> (20 < x)%Q -> (x < inject_Z (2 ^ 53))%Q ->
  Qfloor (Py.double (x / 5)) = Qfloor (x / 5).
Proof.
  intros Hrep H20 H53.
  assert (Hx : (0 < x)%Q) by lra.
  set (q := (x / 5)%Q). set (m := Qfloor q).
  assert (Eq5 : (q * 5 == x)%Q) by (unfold q; field).
  pose proof (Qfloor_le q) as Mlo. pose proof (Qlt_floor q) as Mhi.
  fold m in Mlo, Mhi.
  rewrite inject_Z_plus in Mhi. change (inject_Z 1) with 1%Q in Mhi.
  assert (Hq : (0 < q)%Q) by lra.
  (* exponents *)
  assert (Lx4 : (4 <= Py.floor_log2 x)%Z).
  { apply floor_log2_ge. change (Py.pow2 4) with 16%Q. lra. }
  assert (Lx52 : (Py.floor_log2 x < 53)%Z).
  { apply floor_log2_lt; [exact Hx |]. now rewrite pow2_Z by lia. }
  assert (Ex : Py.exponent x = (Py.floor_log2 x - 52)%Z).
  { rewrite exponent_pos by exact Hx. lia. }
  destruct (floor_log2_spec x Hx) as [_ Xhi].
  assert (Lq : (Py.floor_log2 q < Py.floor_log2 x - 1)%Z).
  { apply floor_log2_lt; [exact Hq |].
    assert (E4 : (Py.pow2 (Py.floor_log2 x + 1)
                  == Py.pow2 (Py.floor_log2 x - 1) * 4)%Q).
    { replace (Py.floor_log2 x + 1)%Z with (Py.floor_log2 x - 1 + 2)%Z by lia.
      rewrite pow2_add. change (Py.pow2 2) with 4%Q. reflexivity. }
    pose proof (pow2_pos (Py.floor_log2 x - 1)). lra. }
  assert (Eqe : (Py.exponent q <= Py.exponent x - 2)%Z).
  { rewrite exponent_pos by exact Hq. lia. }
  set (ex := Py.exponent x) in *.
  assert (Hex : (ex <= 0)%Z) by lia.
  pose proof (pow2_pos ex) as Pex.
  (* the gap up to the next multiple of five *)
  assert (Grid : (x == inject_Z (Py.round_half_even (x / Py.pow2 ex))
                      * Py.pow2 ex)%Q).
  { symmetry. exact Hrep. }
  set (k := Py.round_half_even (x / Py.pow2 ex)) in *.
  assert (Next : (inject_Z (5 * (m + 1) * 2 ^ (- ex)) * Py.pow2 ex
                  == 5 * (inject_Z m + 1))%Q).
  { rewrite !inject_Z_mult, <- pow2_Z by lia.
    rewrite <- Qmult_assoc, <- pow2_add.
    replace (- ex + ex)%Z with 0%Z by lia. change (Py.pow2 0) with 1%Q.
    rewrite inject_Z_plus. change (inject_Z 5) with 5%Q.
    change (inject_Z 1) with 1%Q. ring. }
  assert (Step : (k + 1 <= 5 * (m + 1) * 2 ^ (- ex))%Z).
  { apply Z.lt_succ_r, Z.succ_lt_mono. unfold Z.succ.
    replace (k + 1 + 1)%Z with (k + 2)%Z by lia.
    assert (Hlt : (k < 5 * (m + 1) * 2 ^ (- ex))%Z); [| lia].
    rewrite Zlt_Qlt.
    apply Qmult_lt_r with (Py.pow2 ex); [exact Pex |].
    rewrite Next, <- Grid. lra. }
  assert (Gap : (x + Py.pow2 ex <= 5 * (inject_Z m + 1))%Q).
  { rewrite <- Next. rewrite Zle_Qle in Step.
    rewrite inject_Z_plus in Step. change (inject_Z 1) with 1%Q in Step.
    assert (S2 : ((inject_Z k + 1) * Py.pow2 ex
                  <= inject_Z (5 * (m + 1) * 2 ^ (- ex)) * Py.pow2 ex)%Q)
      by (apply Qmult_le_compat_r; lra).
    lra. }
  (* the rounding error *)
  pose proof (double_error q) as Err.
  apply Qabs_Qle_condition in Err. destruct Err as [_ Err].
  assert (P4 : (Py.pow2 (Py.exponent q) * 4 <= Py.pow2 ex)%Q).
  { assert (E4 : (Py.pow2 (Py.exponent q) * 4 == Py.pow2 (Py.exponent q + 2))%Q).
    { rewrite pow2_add. change (Py.pow2 2) with 4%Q. reflexivity. }
    rewrite E4. apply pow2_le. lia. }
  assert (Eh : (Py.pow2 (Py.exponent q) / 2
                == (1 # 2) * Py.pow2 (Py.exponent q))%Q) by field.
  rewrite Eh in Err.
  pose proof (pow2_pos (Py.exponent q)) as Pq.
  assert (Up : (Py.double q < inject_Z (m + 1))%Q).
  { rewrite inject_Z_plus. change (inject_Z 1) with 1%Q. lra. }
  (* the floor *)
  assert (Hm : (0 <= m < 2 ^ 53)%Z).
  { split.
    - assert (Hneg : (-1 < m)%Z); [| lia].
      rewrite Zlt_Qlt. change (inject_Z (-1)) with (-1)%Q. lra.
    - rewrite Zlt_Qlt. lra. }
  assert (Lo : (inject_Z m <= Py.double q)%Q).
  { rewrite <- (double_Z m Hm). apply double_mono; [| exact Mlo].
    rewrite <- (Zle_Qle 0). lia. }
  apply Z.le_antisymm.
  - apply Z.lt_succ_r. rewrite Zlt_Qlt. unfold Z.succ.
    pose proof (Qfloor_le (Py.double q)). lra.
  - rewrite <- (Qfloor_Z m). now apply Qfloor_resp_le.
Qed.

Lemma double_nonpos (q : Q) : (q <= 0)%Q -> (Py.double q <= 0)%Q.
Proof.
  intros H. unfold Py.double.
  pose proof (pow2_pos (Py.exponent q)) as P.
  assert (R : (Py.round_half_even (q / Py.pow2 (Py.exponent q)) <= 0)%Z).
  { rewrite <- (round_half_even_Z 0). apply round_half_even_mono.
    change (inject_Z 0) with 0%Q.
    apply Qle_shift_div_r; [exact P | lra]. }
  rewrite Zle_Qle in R. change (inject_Z 0) with 0%Q in R.
  set (m := inject_Z (Py.round_half_even (q / Py.pow2 (Py.exponent q)))) in *.
  assert (E : (0 == 0 * Py.pow2 (Py.exponent q))%Q) by ring.
  rewrite E. apply Qmult_le_compat_r; lra.
Qed.

(** The double nearest a positive number is a double itself. *)
Lemma double_idem_pos (q : Q) :
  (0 < q)%Q -> (Py.double (Py.double q) == Py.double q)%Q.
Proof.
  intros Hq.
  destruct (floor_log2_spec q Hq) as [Lo Hi].
  pose proof (exponent_pos q Hq) as Ee.
  set (l := Py.floor_log2 q) in *.
  assert (D : (Py.double q
               == inject_Z (Py.round_half_even (q / Py.pow2 (Py.exponent q)))
                  * Py.pow2 (Py.exponent q))%Q) by reflexivity.
  set (e := Py.exponent q) in *.
  set (m := Py.round_half_even (q / Py.pow2 e)) in *.
  set (d := Py.double q) in *.
  pose proof (pow2_pos e) as Pe.
  assert (M0 : (0 <= m)%Z).
  { unfold m. rewrite <- (round_half_even_Z 0). apply round_half_even_mono.
    change (inject_Z 0) with 0%Q. apply Qle_shift_div_l; [exact Pe | lra]. }
  destruct (Z.eq_dec m 0%Z) as [Z0 | NZ].
  { assert (E0 : (d == 0)%Q) by (rewrite D, Z0; ring).
    transitivity 0%Q; [now apply double_0 | now symmetry]. }
  assert (Dpos : (0 < d)%Q).
  { rewrite D. apply Qmult_lt_0_compat; [| exact Pe].
    rewrite <- (Zlt_Qlt 0). lia. }
  assert (Grid : forall k : Z,
             (d == inject_Z k * Py.pow2 (Py.exponent d))%Q ->
             (Py.double d == d)%Q).
  { intros k. apply double_on_grid. }
  destruct (Z_le_gt_dec (-1074) (l - 52)) as [Normal | Sub].
  - (* normal range *)
    assert (Ee' : e = (l - 52)%Z) by lia.
    assert (El : (Py.pow2 l == Py.pow2 52 * Py.pow2 e)%Q).
    { rewrite <- pow2_add. now replace (52 + e)%Z with l by lia. }
    assert (El1 : (Py.pow2 (l + 1) == Py.pow2 53 * Py.pow2 e)%Q).
    { rewrite <- pow2_add. now replace (53 + e)%Z with (l + 1)%Z by lia. }
    assert (Mlo : (2 ^ 52 <= m)%Z).
    { unfold m. rewrite <- (round_half_even_Z (2 ^ 52)).
      apply round_half_even_mono. rewrite <- pow2_Z by lia.
      apply Qle_shift_div_l; [exact Pe | lra]. }
    assert (Mhi : (m <= 2 ^ 53)%Z).
    { unfold m. rewrite <- (round_half_even_Z (2 ^ 53)).
      apply round_half_even_mono. rewrite <- pow2_Z by lia.
      apply Qle_shift_div_r; [exact Pe | lra]. }
    destruct (Z.eq_dec m (2 ^ 53)%Z) as [Top | Below].
    + assert (Ed : (d == Py.pow2 (l + 1))%Q).
      { rewrite D, Top, El1, (pow2_Z 53) by lia. reflexivity. }
      assert (Fl : Py.floor_log2 d = (l + 1)%Z).
      { apply floor_log2_unique.
        - rewrite Ed. apply Qle_refl.
        - rewrite Ed. apply pow2_lt. lia. }
      assert (Exd : Py.exponent d = (e + 1)%Z).
      { rewrite exponent_pos by exact Dpos. rewrite Fl. lia. }
      apply (Grid (2 ^ 52)%Z). rewrite Exd, Ed, <- (pow2_Z 52) by lia.
      rewrite <- pow2_add. now replace (52 + (e + 1))%Z with (l + 1)%Z by lia.
    + assert (Fl : Py.floor_log2 d = l).
      { apply floor_log2_unique.
        - rewrite D, El, (pow2_Z 52) by lia.
          apply Qmult_le_compat_r; [| lra]. rewrite <- Zle_Qle. exact Mlo.
        - rewrite D, El1, (pow2_Z 53) by lia.
          apply Qmult_lt_compat_r; [exact Pe |]. rewrite <- Zlt_Qlt. lia. }
      assert (Exd : Py.exponent d = e).
      { rewrite exponent_pos by exact Dpos. rewrite Fl. lia. }
      apply (Grid m). rewrite Exd. exact D.
  - (* subnormal range *)
    assert (Ee' : e = (-1074)%Z) by lia.
    assert (Q52 : (q <= Py.pow2 52 * Py.pow2 e)%Q).
    { rewrite <- pow2_add. apply Qlt_le_weak.
      apply Qlt_le_trans with (Py.pow2 (l + 1)); [exact Hi |].
      apply pow2_le. lia. }
    assert (Mhi : (m <= 2 ^ 52)%Z).
    { unfold m. rewrite <- (round_half_even_Z (2 ^ 52)).
      apply round_half_even_mono. rewrite <- pow2_Z by lia.
      apply Qle_shift_div_r; [exact Pe | lra]. }
    assert (Dhi : (d < Py.pow2 (-1021))%Q).
    { apply Qle_lt_trans with (Py.pow2 52 * Py.pow2 e)%Q.
      - rewrite D, (pow2_Z 52) by lia.
        apply Qmult_le_compat_r; [| lra]. rewrite <- Zle_Qle. exact Mhi.
      - rewrite <- pow2_add. apply pow2_lt. lia. }
    assert (Fl : (Py.floor_log2 d < -1021)%Z)
      by (apply floor_log2_lt; assumption).
    assert (Exd : Py.exponent d = e).
    { rewrite exponent_pos by exact Dpos. lia. }
    apply (Grid m). rewrite Exd. exact D.
Qed.

(** *** Sums, quotients and [round] *)

Lemma to_Q_add_0 (a b : Py.num) :
  (Py.to_Q a == 0)%Q -> (Py.to_Q b == 0)%Q -> (Py.to_Q (Py.add a b) == 0)%Q.
Proof.
  assert (F : forall v, (Py.to_Q v == 0)%Q -> (Py.to_float v == 0)%Q).
  { intros [n | x] H; cbn [Py.to_float Py.to_Q] in *;
      [now apply double_0 | exact H]. }
  intros Ha Hb.
  destruct a as [m | x], b as [n | y]; cbn [Py.add Py.to_Q].
  - cbn [Py.to_Q] in Ha, Hb. rewrite inject_Z_plus, Ha, Hb. reflexivity.
  - apply double_0. rewrite (F _ Ha), (F _ Hb). reflexivity.
  - apply double_0. rewrite (F _ Ha), (F _ Hb). reflexivity.
  - apply double_0. rewrite (F _ Ha), (F _ Hb). reflexivity.
Qed.

Lemma round1_0 (a : Py.num) :
  (Py.to_Q a == 0)%Q -> (Py.to_Q (Py.round1 a) == 0)%Q.
Proof.
  destruct a as [n | x]; cbn [Py.round1 Py.to_Q]; intros H; [exact H |].
  apply double_0.
  assert (E : (x * 10 == inject_Z 0)%Q) by (rewrite H; reflexivity).
  rewrite (round_half_even_Qeq _ _ E), round_half_even_Z. reflexivity.
Qed.

(** The delay of line 57 is the floor of the float quotient. *)
Lemma delay_of_spec (score : Py.num) (d : Z) :
  Main.delay_of score = Some d ->
  (20 < Py.to_Q score)%Q /\
  d = Qfloor (Py.double (Py.to_Q score / 5)).
Proof.
  unfold Main.delay_of. destruct (Py.gt score 20) eqn:E; [| discriminate].
  apply gt_spec in E. change (inject_Z 20) with 20%Q in E.
  change (Py.truediv score 5)
    with (Py.Float (Py.double (Py.to_Q score / 5))).
  rewrite int_floor_nonneg.
  - intros Hd. split; [exact E | congruence].
  - apply double_nonneg. apply Qle_shift_div_l; lra.
Qed.

Lemma delay_of_present (score : Py.num) :
  (20 < Py.to_Q score)%Q ->
  Main.delay_of score = Some (Qfloor (Py.double (Py.to_Q score / 5))).
Proof.
  intros H. destruct (Main.delay_of score) as [d |] eqn:Hd.
  - destruct (delay_of_spec _ _ Hd) as [_ ->]. reflexivity.
  - unfold Main.delay_of in Hd.
    assert (E : Py.gt score 20 = true) by (now apply gt_spec).
    rewrite E in Hd. discriminate.
Qed.

(** A score of line 49 above 20 and below 2^53 is a double: an int of
    that size is one, and a float sum has been rounded to one. *)
Lemma score_of_double (congestion gdelt_signals : gmap string Py.num) :
  (20 < Py.to_Q (Main.score_of congestion gdelt_signals))%Q ->
  (Py.to_Q (Main.score_of congestion gdelt_signals) < inject_Z (2 ^ 53))%Q ->
  (Py.double (Py.to_Q (Main.score_of congestion gdelt_signals))
   == Py.to_Q (Main.score_of congestion gdelt_signals))%Q.
Proof.
  unfold Main.score_of.
  assert (F : forall y : Q,
             (20 < Py.double y)%Q ->
             (Py.double (Py.double y) == Py.double y)%Q).
  { intros y Hy. apply double_idem_pos.
    destruct (Qlt_le_dec 0 y) as [H | H]; [exact H | exfalso].
    pose proof (double_nonpos y H). lra. }
  destruct (Main.get congestion "risk") as [m | x],
    (Main.get gdelt_signals "risk") as [n | y];
    cbn [Py.add Py.to_Q]; intros H20 H53; try (now apply F).
  apply double_Z. change 20%Q with (inject_Z 20) in H20.
  rewrite <- Zlt_Qlt in H20, H53. lia.
Qed.

(** A quotient of at least the integer [n] truncates to at least [n];
    one of at most [n] truncates to at most [n]. *)
Lemma floor_double_ge (q : Q) (n : Z) :
  (0 <= n < 2 ^ 53)%Z -> (inject_Z n <= q)%Q ->
  (n <= Qfloor (Py.double q))%Z.
Proof.
  intros Hn Hq. rewrite <- (Qfloor_Z n). apply Qfloor_resp_le.
  rewrite <- (double_Z n Hn). apply double_mono; [| exact Hq].
  rewrite <- (Zle_Qle 0). lia.
Qed.

Lemma floor_double_le (q : Q) (n : Z) :
  (0 <= n < 2 ^ 53)%Z -> (0 <= q)%Q -> (q <= inject_Z n)%Q ->
  (Qfloor (Py.double q) <= n)%Z.
Proof.
  intros Hn H0 Hq. rewrite <- (Qfloor_Z n). apply Qfloor_resp_le.
  rewrite <- (double_Z n Hn). now apply double_mono.
Qed.

(** ** The scoring endpoint *)

Ltac solve_band :=
  first [ discriminate | reflexivity | assumption | lra | exfalso; lra ].

Section MainProperties.

Variable float_repr : Q -> string.

Lemma forecast_loop_unbound_gdelt key src query port rest results :
  Main.forecast_loop float_repr (Main.module_globals key src) query
    (port :: rest) results
  = match src port with
    | Ok _ => Raise (NameError "get_gdelt_signals")
    | Raise e => Raise e
    end.
Proof. simpl. destruct (src port); reflexivity. Qed.

(** With every name bound and both sources answering, the loop returns
    one result per port, in the order of the request. *)
Lemma forecast_loop_ports G query f g todo results :
  Main.get_port_congestion G = Some f ->
  Main.get_gdelt_signals G = Some g ->
  (forall p, In p todo -> exists c d,
      f p = Ok c /\ g p (default [] (Main.keywords query)) = Ok d) ->
  exists out,
    Main.forecast_loop float_repr G query todo results = Ok out /\
    Main.port <$> out = ((Main.port <$> results) ++ todo)%list.
Proof.
  intros Hf Hg. revert results.
  induction todo as [| p rest IH]; intros results Hsrc.
  - exists results. split; [reflexivity | now rewrite app_nil_r].
  - destruct (Hsrc p) as (c & d & Hc & Hd); [now left |].
    destruct (IH (results ++ [Main.forecast_result float_repr p c d])%list)
      as (out & Hout & Hports).
    { intros q Hq. apply Hsrc. now right. }
    exists out. split.
    + simpl. rewrite Hf, Hg. simpl. rewrite Hc. simpl. rewrite Hd. exact Hout.
    + rewrite Hports, fmap_app, <- app_assoc. reflexivity.
Qed.

Lemma forecast_disruption_ports G query key f g now :
  Main.settings G = Some (Some key) ->
  Main.get_port_congestion G = Some f ->
  Main.get_gdelt_signals G = Some g ->
  Main.datetime G = Some now ->
  (forall p, In p (Main.ports query) -> exists c d,
      f p = Ok c /\ g p (default [] (Main.keywords query)) = Ok d) ->
  exists out,
    Main.forecast_disruption float_repr G query (Some key)
    = Ok {| Main.forecasts := out; Main.as_of := now ++ "Z" |} /\
    Main.port <$> out = Main.ports query.
Proof.
  intros Hk Hf Hg Hn Hsrc.
  destruct (forecast_loop_ports G query f g (Main.ports query) [] Hf Hg Hsrc)
    as (out & Hout & Hports).
  exists out. split; [| exact Hports].
  unfold Main.forecast_disruption. rewrite Hk. simpl.
  rewrite bool_decide_eq_true_2 by reflexivity.
  rewrite Hout. simpl. rewrite Hn. reflexivity.
Qed.

End MainProperties.

(** C1.  An authorized request never gets a response from
    [forecast_disruption] as the module stands: with no port the lookup
    of [datetime] on line 66 raises [NameError], and with a first port
    either the congestion source raises or the lookup of
    [get_gdelt_signals] on line 44 raises [NameError].  For the request
    [{ports: ["Shanghai"]}] with a congestion source that answers with an
    empty dict (a failed source, contributing zero) the endpoint raises
    [NameError: get_gdelt_signals] instead of returning the one "Low"
    result the claim promises. *)
Theorem forecast_disruption_authorized_raises :
  (forall (float_repr : Q -> string) (key : string)
          (src : string -> result (gmap string Py.num))
          (query : Main.ForecastQuery),
      Main.forecast_disruption float_repr (Main.module_globals key src)
        query (Some key)
      = match Main.ports query with
        | [] => Raise (NameError "datetime")
        | port :: _ =>
            match src port with
            | Ok _ => Raise (NameError "get_gdelt_signals")
            | Raise e => Raise e
            end
        end) /\
  Main.forecast_disruption (fun _ => "0.0")
    (Main.module_globals "secret" (fun _ => Ok ∅))
    {| Main.ports := ["Shanghai"]; Main.horizon_days := 30;
       Main.keywords := None |}
    (Some "secret")
  = Raise (NameError "get_gdelt_signals").
Proof.
  split; [| reflexivity].
  intros float_repr key src query.
  unfold Main.forecast_disruption. simpl.
  rewrite bool_decide_eq_true_2 by reflexivity.
  destruct (Main.ports query) as [| port rest].
  - reflexivity.
  - rewrite forecast_loop_unbound_gdelt.
    destruct (src port); reflexivity.
Qed.

(** C4.  The level of a result is "High" exactly when the score is above
    60, "Medium" exactly when it is above 30 and at most 60, and "Low"
    exactly when it is at most 30; a score of 60.0 gives "Medium" and a
    score of 30.0 gives "Low". *)
Theorem risk_level_banding :
  (forall (float_repr : Q -> string) (port : string)
          (congestion gdelt_signals : gmap string Py.num),
      let score := Py.to_Q (Main.score_of congestion gdelt_signals) in
      let level :=
        Main.risk_level
          (Main.forecast_result float_repr port congestion gdelt_signals) in
      (level = "High" <-> (60 < score)%Q) /\
      (level = "Medium" <-> (30 < score /\ score <= 60)%Q) /\
      (level = "Low" <-> (score <= 30)%Q)) /\
  Main.level_of (Py.Float 60) = "Medium" /\
  Main.level_of (Py.Float (601 # 10)) = "High" /\
  Main.level_of (Py.Float 30) = "Low" /\
  Main.level_of (Py.Float (301 # 10)) = "Medium".
Proof.
  split; [| repeat split; reflexivity].
  intros float_repr port congestion gdelt_signals. simpl.
  unfold Main.level_of.
  set (s := Main.score_of congestion gdelt_signals).
  destruct (Py.gt s 60) eqn:E60; [| destruct (Py.gt s 30) eqn:E30].
  - apply gt_spec in E60. change (inject_Z 60) with 60%Q in E60.
    repeat split; intros; solve_band.
  - apply gt_false_spec in E60. apply gt_spec in E30.
    change (inject_Z 60) with 60%Q in E60.
    change (inject_Z 30) with 30%Q in E30.
    repeat split; intros; solve_band.
  - apply gt_false_spec in E60. apply gt_false_spec in E30.
    change (inject_Z 60) with 60%Q in E60.
    change (inject_Z 30) with 30%Q in E30.
    repeat split; intros; solve_band.
Qed.



(** C3, counterexample.  For a port whose two sources contribute
    nothing, [contributing_signals] is not empty: it holds the
    MarineTraffic entry with impact 0. *)
Lemma empty_signal_contributing_signals_not_empty :
  let r := Main.forecast_result (fun _ => "0.0") "Shanghai" ∅ ∅ in
  Main.contributing_signals r
  = [ {| Main.source := "MarineTraffic"; Main.type := "Congestion";
         Main.value := "0 vessels"; Main.impact := Py.Int 0 |} ] /\
  ~ Main.contributing_signals r = [].
Proof. split; [reflexivity | discriminate]. Qed.

(** C3, amended.  For a port whose two sources each contribute a risk of
    zero, the result has score 0.0, level "Low", no delay, confidence
    0.85, and exactly one contributing signal: the MarineTraffic
    congestion entry with impact 0, whose value reads "0 vessels" when
    the source reports no [vessels_waiting]. *)
Theorem empty_signal_result (float_repr : Q -> string) (port : string)
    (congestion gdelt_signals : gmap string Py.num) :
  (Py.to_Q (Main.get congestion "risk") == 0)%Q ->
  (Py.to_Q (Main.get gdelt_signals "risk") == 0)%Q ->
  let r := Main.forecast_result float_repr port congestion gdelt_signals in
  (Py.to_Q (Main.disruption_risk_score r) == 0)%Q /\
  Main.risk_level r = "Low" /\
  Main.predicted_delay_days r = None /\
  (Main.confidence r == 85 # 100)%Q /\
  exists signal,
    Main.contributing_signals r = [signal] /\
    Main.source signal = "MarineTraffic" /\
    Main.type signal = "Congestion" /\
    (Py.to_Q (Main.impact signal) == 0)%Q /\
    (congestion !! "vessels_waiting" = None ->
     Main.value signal = "0 vessels").
Proof.
  intros Hc Hg r.
  assert (Hs : (Py.to_Q (Main.score_of congestion gdelt_signals) == 0)%Q).
  { unfold Main.score_of. apply to_Q_add_0; assumption. }
  assert (H60 : Py.gt (Main.score_of congestion gdelt_signals) 60 = false).
  { apply gt_false_spec. rewrite Hs. discriminate. }
  assert (H30 : Py.gt (Main.score_of congestion gdelt_signals) 30 = false).
  { apply gt_false_spec. rewrite Hs. discriminate. }
  assert (H20 : Py.gt (Main.score_of congestion gdelt_signals) 20 = false).
  { apply gt_false_spec. rewrite Hs. discriminate. }
  subst r. simpl. unfold Main.level_of, Main.delay_of.
  rewrite H60, H30, H20.
  repeat split.
  - apply round1_0. exact Hs.
  - eexists. repeat split.
    + exact Hc.
    + intros Hv. unfold Main.get. rewrite Hv. reflexivity.
Qed.

Lemma empty_signal_result_witness :
  let r := Main.forecast_result (fun _ => "0.0") "Shanghai"
             {[ "risk" := Py.Float 0 ]} ∅ in
  (Py.to_Q (Main.disruption_risk_score r) == 0)%Q /\
  Main.risk_level r = "Low" /\
  Main.predicted_delay_days r = None /\
  (Main.confidence r == 85 # 100)%Q /\
  exists signal,
    Main.contributing_signals r = [signal] /\
    Main.source signal = "MarineTraffic" /\
    Main.type signal = "Congestion" /\
    (Py.to_Q (Main.impact signal) == 0)%Q /\
    (({[ "risk" := Py.Float 0 ]} : gmap string Py.num)
       !! "vessels_waiting" = None ->
     Main.value signal = "0 vessels").
Proof.
  apply (empty_signal_result (fun _ => "0.0") "Shanghai"
           {[ "risk" := Py.Float 0 ]} ∅); reflexivity.
Defined.

(** ** Text *)

Lemma prefix_spec (k s : string) :
  String.prefix k s = true <-> exists post, s = k ++ post.
Proof.
  revert s. induction k as [| a k IH]; intros s.
  - split; [intros _; now exists s | intros _; now destruct s].
  - destruct s as [| b s]; simpl.
    + split; [discriminate | intros [post H]; discriminate].
    + destruct (Ascii.ascii_dec a b) as [-> | Hne].
      * rewrite IH. split; intros [post H]; exists post.
        -- now rewrite H.
        -- now inversion H.
      * split; [discriminate | intros [post H]; injection H; congruence].
Qed.

(** [contains k s] holds exactly when [k] occurs in [s]. *)
Lemma contains_spec (k s : string) :
  Text.contains k s = true <-> exists pre post, s = pre ++ k ++ post.
Proof.
  induction s as [| c s IH].
  - change (Text.contains k "") with (String.prefix k "" || false).
    rewrite orb_false_r, prefix_spec. split.
    + intros [post H]. now exists "", post.
    + intros (pre & post & H).
      destruct pre; [now exists post | discriminate].
  - change (Text.contains k (String c s))
      with (String.prefix k (String c s) || Text.contains k s).
    rewrite orb_true_iff, prefix_spec, IH. split.
    + intros [[post H] | (pre & post & H)].
      * now exists "", post.
      * exists (String c pre), post. now rewrite H.
    + intros (pre & post & H). destruct pre as [| c' pre].
      * left. now exists post.
      * right. injection H as _ H. now exists pre, post.
Qed.

(** ** The ingestion job *)

Section RefreshProperties.

Import DailyRefresh.

Variable W : World.

Lemma mentions_spec (title summary : string) :
  mentions title summary = true <->
  exists k, In k vocabulary /\
    (Text.contains k title = true \/ Text.contains k summary = true).
Proof.
  unfold mentions. rewrite existsb_exists.
  split; intros (k & Hk & H); exists k; split; trivial.
  - now apply orb_true_iff.
  - now apply orb_true_iff.
Qed.

(** What an entry must look like for a signal to come out of it. *)
Lemma entry_signal_inv (url : string) (entry : Entry) (sig : SignalRecord) :
  entry_signal W url entry = Ok (Some sig) ->
  exists t raw,
    entry_title entry = Some t /\
    entry_link entry = Some raw /\
    mentions (Text.lower t)
      (Text.lower (default "" (entry_summary entry))) = true /\
    sig = {| source := "MarineTraffic";
             port_name := Str (port_of url);
             country := Str "Unknown";
             event_type :=
               Str (if Text.contains "congestion" (Text.lower t)
                    then "Congestion" else "Disruption");
             description := t ++ " - " ++ default "" (entry_summary entry);
             event_date := now_isoformat W url entry;
             impact_score :=
               Num (if Text.contains "congestion" (Text.lower t)
                    then Py.Float 25 else Py.Float 15);
             raw_data := raw |}.
Proof.
  unfold entry_signal.
  destruct (entry_title entry) as [t |]; [| discriminate]. simpl.
  destruct (mentions _ _) eqn:Hm; [| discriminate].
  destruct (entry_link entry) as [raw |]; [| discriminate]. simpl.
  intros [= <-]. now exists t, raw.
Qed.

Lemma entry_signal_keyword (url : string) (entry : Entry) (sig : SignalRecord) :
  entry_signal W url entry = Ok (Some sig) ->
  exists k, In k vocabulary /\ keyword_in k entry.
Proof.
  intros H. destruct (entry_signal_inv _ _ _ H) as (t & raw & Ht & _ & Hm & _).
  apply mentions_spec in Hm. destruct Hm as (k & Hk & Hor).
  exists k. split; [exact Hk |]. now exists t.
Qed.

(** The entry loop only appends, and what it appends comes from the
    entries it read. *)
Lemma scan_entries_appends (url : string) (entries : list Entry) :
  forall signals, exists new,
    (scan_entries W url entries signals).1 = (signals ++ new)%list /\
    forall sig, In sig new ->
      exists entry, In entry entries /\
        entry_signal W url entry = Ok (Some sig).
Proof.
  induction entries as [| entry rest IH]; intros signals; simpl.
  - exists []. split; [now rewrite app_nil_r | intros sig []].
  - destruct (entry_signal W url entry) as [[s |] | e] eqn:E.
    + destruct (IH (signals ++ [s])%list) as (new & Hnew & Hfrom).
      exists (s :: new). split.
      * rewrite Hnew, <- app_assoc. reflexivity.
      * intros sig [<- | Hin]; [now exists entry; split; [left |] |].
        destruct (Hfrom sig Hin) as (entry' & Hin' & He').
        exists entry'. split; [now right | exact He'].
    + destruct (IH signals) as (new & Hnew & Hfrom).
      exists new. split; [exact Hnew |].
      intros sig Hin. destruct (Hfrom sig Hin) as (entry' & Hin' & He').
      exists entry'. split; [now right | exact He'].
    + exists []. split; [now rewrite app_nil_r | intros sig []].
Qed.

Lemma feed_signals_appends (url : string) (signals : list SignalRecord) :
  exists new,
    feed_signals W signals url = (signals ++ new)%list /\
    forall sig, In sig new ->
      exists entries entry,
        parse_rss W url = Ok entries /\ In entry (take 20 entries) /\
        entry_signal W url entry = Ok (Some sig).
Proof.
  unfold feed_signals. destruct (parse_rss W url) as [entries | e].
  - destruct (scan_entries_appends url (take 20 entries) signals)
      as (new & Hnew & Hfrom).
    exists new. split; [exact Hnew |].
    intros sig Hin. destruct (Hfrom sig Hin) as (entry & Hin' & He).
    now exists entries, entry.
  - exists []. split; [now rewrite app_nil_r | intros sig []].
Qed.

Lemma foldl_feed_signals_from (urls : list string) :
  forall signals sig,
    In sig (foldl (feed_signals W) signals urls) ->
    In sig signals \/
    exists url entries entry,
      In url urls /\ parse_rss W url = Ok entries /\
      In entry (take 20 entries) /\
      entry_signal W url entry = Ok (Some sig).
Proof.
  induction urls as [| url rest IH]; intros signals sig; simpl.
  - now left.
  - intros Hin. destruct (IH _ _ Hin) as [Hhere | (u & es & en & Hu & H)].
    + destruct (feed_signals_appends url signals) as (new & Hnew & Hfrom).
      rewrite Hnew in Hhere. apply in_app_or in Hhere.
      destruct Hhere as [Hold | Hnew']; [now left | right].
      destruct (Hfrom sig Hnew') as (entries & entry & H).
      exists url, entries, entry. split; [now left | exact H].
    + right. exists u, es, en. split; [now right | exact H].
Qed.

(** Every signal the adapter returns was built from an entry it read. *)
Lemma marinetraffic_signals_from (sig : SignalRecord) :
  In sig (marinetraffic_signals W) ->
  exists url entry,
    scanned W url entry /\ entry_signal W url entry = Ok (Some sig).
Proof.
  intros Hin. apply foldl_feed_signals_from in Hin.
  destruct Hin as [[] | (url & entries & entry & Hu & Hp & He & Hs)].
  exists url, entry. split; [| exact Hs].
  split; [exact Hu | now exists entries].
Qed.

(** *** The adapters never raise *)

Lemma fetch_gdelt_yesterday_returns (s : State) :
  exists l,
    fetch_gdelt_yesterday W s
    = (Ok (gdelt_records W), {| log := log s ++ l; table := table s |}).
Proof.
  unfold fetch_gdelt_yesterday, gdelt_records, try_except, lift, logging.
  unfold mbind, M_bind, mret, M_ret. simpl.
  destruct (gdelt_export W) as [df | e]; simpl;
    eexists; rewrite <- app_assoc; reflexivity.
Qed.

Lemma scan_feed_returns (url : string) (signals : list SignalRecord)
    (s : State) :
  exists l,
    scan_feed W url signals s
    = (Ok (feed_signals W signals url),
       {| log := log s ++ l; table := table s |}).
Proof.
  unfold scan_feed, feed_signals, logging.
  unfold mbind, M_bind, mret, M_ret.
  destruct (parse_rss W url) as [entries | e]; simpl.
  - destruct (scan_entries W url (take 20 entries) signals)
      as [signals' [[] | e]]; simpl; eexists; reflexivity.
  - eexists; reflexivity.
Qed.

Lemma scan_feeds_returns (urls : list string) :
  forall signals s, exists l,
    scan_feeds W urls signals s
    = (Ok (foldl (feed_signals W) signals urls),
       {| log := log s ++ l; table := table s |}).
Proof.
  induction urls as [| url rest IH]; intros signals s; simpl.
  - exists []. rewrite app_nil_r. now destruct s.
  - unfold mbind, M_bind.
    destruct (scan_feed_returns url signals s) as (l1 & ->).
    destruct (IH (feed_signals W signals url)
                {| log := log s ++ l1; table := table s |}) as (l2 & ->).
    exists (l1 ++ l2)%list. simpl. now rewrite app_assoc.
Qed.

Lemma parse_marinetraffic_rss_returns (s : State) :
  exists l,
    parse_marinetraffic_rss W s
    = (Ok (marinetraffic_signals W),
       {| log := log s ++ l; table := table s |}).
Proof. apply scan_feeds_returns. Qed.

End RefreshProperties.

(** ** The MarineTraffic adapter *)

(** C8.  Every signal [parse_marinetraffic_rss] returns was built from
    one of the first twenty entries of a configured feed, and one of
    the eight keywords occurs in that entry's lowered title or summary;
    an entry in which none of them occurs yields no signal. *)
Theorem no_keyword_no_signal (W : DailyRefresh.World)
    (s s' : DailyRefresh.State)
    (sigs : list DailyRefresh.SignalRecord) (sig : DailyRefresh.SignalRecord) :
  DailyRefresh.parse_marinetraffic_rss W s = (Ok sigs, s') ->
  In sig sigs ->
  (exists url entry k,
      DailyRefresh.scanned W url entry /\
      DailyRefresh.entry_signal W url entry = Ok (Some sig) /\
      In k DailyRefresh.vocabulary /\
      DailyRefresh.keyword_in k entry) /\
  (forall url entry,
      (forall k, In k DailyRefresh.vocabulary ->
                 ~ DailyRefresh.keyword_in k entry) ->
      forall sig', DailyRefresh.entry_signal W url entry <> Ok (Some sig')).
Proof.
  intros Hrun Hin. split.
  - destruct (parse_marinetraffic_rss_returns W s) as (l & Hret).
    rewrite Hret in Hrun. injection Hrun as <- _.
    destruct (marinetraffic_signals_from W sig Hin) as (url & entry & Hsc & He).
    destruct (entry_signal_keyword W url entry sig He) as (k & Hk & Hkw).
    now exists url, entry, k.
  - intros url entry Hnone sig' He.
    destruct (entry_signal_keyword W url entry sig' He) as (k & Hk & Hkw).
    exact (Hnone k Hk Hkw).
Qed.

Lemma no_keyword_no_signal_witness :
  (exists url entry k,
      DailyRefresh.scanned Sample.world url entry /\
      DailyRefresh.entry_signal Sample.world url entry
      = Ok (Some (Sample.strike_signal "Shanghai")) /\
      In k DailyRefresh.vocabulary /\
      DailyRefresh.keyword_in k entry) /\
  (forall url entry,
      (forall k, In k DailyRefresh.vocabulary ->
                 ~ DailyRefresh.keyword_in k entry) ->
      forall sig',
        DailyRefresh.entry_signal Sample.world url entry <> Ok (Some sig')).
Proof.
  apply (no_keyword_no_signal Sample.world Sample.start
           (DailyRefresh.parse_marinetraffic_rss Sample.world Sample.start).2
           (DailyRefresh.marinetraffic_signals Sample.world)
           (Sample.strike_signal "Shanghai")).
  - reflexivity.
  - right. left. reflexivity.
Defined.

(** C9.  A signal [parse_marinetraffic_rss] returns has event type
    "Congestion" exactly when "congestion" occurs in the lowered title
    of the entry it was built from, and "Disruption" otherwise; its
    impact score is 25.0 in the first case and 15.0 in the second. *)
Theorem event_type_by_title (W : DailyRefresh.World)
    (s s' : DailyRefresh.State)
    (sigs : list DailyRefresh.SignalRecord) (sig : DailyRefresh.SignalRecord) :
  DailyRefresh.parse_marinetraffic_rss W s = (Ok sigs, s') ->
  In sig sigs ->
  exists url entry t,
    DailyRefresh.scanned W url entry /\
    DailyRefresh.entry_signal W url entry = Ok (Some sig) /\
    DailyRefresh.entry_title entry = Some t /\
    (DailyRefresh.event_type sig = DailyRefresh.Str "Congestion" <->
     Text.contains "congestion" (Text.lower t) = true) /\
    (DailyRefresh.event_type sig = DailyRefresh.Str "Disruption" <->
     Text.contains "congestion" (Text.lower t) = false) /\
    (DailyRefresh.event_type sig = DailyRefresh.Str "Congestion" /\
     DailyRefresh.impact_score sig = DailyRefresh.Num (Py.Float 25) \/
     DailyRefresh.event_type sig = DailyRefresh.Str "Disruption" /\
     DailyRefresh.impact_score sig = DailyRefresh.Num (Py.Float 15)).
Proof.
  intros Hrun Hin.
  destruct (parse_marinetraffic_rss_returns W s) as (l & Hret).
  rewrite Hret in Hrun. injection Hrun as <- _.
  destruct (marinetraffic_signals_from W sig Hin) as (url & entry & Hsc & He).
  destruct (entry_signal_inv W url entry sig He)
    as (t & raw & Ht & _ & _ & ->).
  exists url, entry, t. simpl.
  split; [exact Hsc |]. split; [exact He |]. split; [exact Ht |].
  destruct (Text.contains "congestion" (Text.lower t)).
  - split; [easy |]. split; [easy |]. now left.
  - split; [easy |]. split; [easy |]. now right.
Qed.

Lemma event_type_by_title_witness :
  exists url entry t,
    DailyRefresh.scanned Sample.world url entry /\
    DailyRefresh.entry_signal Sample.world url entry
    = Ok (Some (Sample.congestion_signal "Shanghai")) /\
    DailyRefresh.entry_title entry = Some t /\
    (DailyRefresh.event_type (Sample.congestion_signal "Shanghai")
     = DailyRefresh.Str "Congestion" <->
     Text.contains "congestion" (Text.lower t) = true) /\
    (DailyRefresh.event_type (Sample.congestion_signal "Shanghai")
     = DailyRefresh.Str "Disruption" <->
     Text.contains "congestion" (Text.lower t) = false) /\
    (DailyRefresh.event_type (Sample.congestion_signal "Shanghai")
     = DailyRefresh.Str "Congestion" /\
     DailyRefresh.impact_score (Sample.congestion_signal "Shanghai")
     = DailyRefresh.Num (Py.Float 25) \/
     DailyRefresh.event_type (Sample.congestion_signal "Shanghai")
     = DailyRefresh.Str "Disruption" /\
     DailyRefresh.impact_score (Sample.congestion_signal "Shanghai")
     = DailyRefresh.Num (Py.Float 15)).
Proof.
  apply (event_type_by_title Sample.world Sample.start
           (DailyRefresh.parse_marinetraffic_rss Sample.world Sample.start).2
           (DailyRefresh.marinetraffic_signals Sample.world)
           (Sample.congestion_signal "Shanghai")).
  - reflexivity.
  - left. reflexivity.
Defined.

(** C10.  A signal built from an entry of the Los Angeles feed has port
    name "Unknown", not "Los Angeles": the lowered URL does not contain
    "los angeles".  So has every signal the scan of that feed adds.  Of
    the configured feeds only the Shanghai one resolves to a named
    port. *)
Theorem los_angeles_feed_port_unknown (W : DailyRefresh.World)
    (entry : DailyRefresh.Entry) (sig : DailyRefresh.SignalRecord) :
  DailyRefresh.entry_signal W DailyRefresh.los_angeles_feed entry
  = Ok (Some sig) ->
  DailyRefresh.port_name sig = DailyRefresh.Str "Unknown" /\
  DailyRefresh.port_name sig <> DailyRefresh.Str "Los Angeles" /\
  Text.contains "los angeles" (Text.lower DailyRefresh.los_angeles_feed)
  = false /\
  (forall signals sig',
      In sig' (DailyRefresh.feed_signals W signals
                 DailyRefresh.los_angeles_feed) ->
      In sig' signals \/
      DailyRefresh.port_name sig' = DailyRefresh.Str "Unknown") /\
  DailyRefresh.port_of DailyRefresh.shanghai_feed = "Shanghai" /\
  (forall url, In url DailyRefresh.feeds ->
     (DailyRefresh.port_of url <> "Unknown" <->
      url = DailyRefresh.shanghai_feed)).
Proof.
  intros He.
  destruct (entry_signal_inv W _ entry sig He) as (t & raw & _ & _ & _ & ->).
  split; [reflexivity |]. split; [discriminate |]. split; [reflexivity |].
  split; [| split; [reflexivity |]].
  - intros signals sig' Hin.
    destruct (feed_signals_appends W DailyRefresh.los_angeles_feed signals)
      as (new & Hnew & Hfrom).
    rewrite Hnew in Hin. apply in_app_or in Hin.
    destruct Hin as [Hold | Hadded]; [now left | right].
    destruct (Hfrom sig' Hadded) as (entries & e & _ & _ & He').
    destruct (entry_signal_inv W _ e sig' He') as (t' & raw' & _ & _ & _ & ->).
    reflexivity.
  - intros url [<- | [<- | []]].
    + split; [reflexivity | discriminate].
    + split; [intros Hne; now contradict Hne | discriminate].
Qed.

Lemma los_angeles_feed_port_unknown_witness :
  DailyRefresh.port_name (Sample.congestion_signal "Unknown")
  = DailyRefresh.Str "Unknown" /\
  DailyRefresh.port_name (Sample.congestion_signal "Unknown")
  <> DailyRefresh.Str "Los Angeles" /\
  Text.contains "los angeles" (Text.lower DailyRefresh.los_angeles_feed)
  = false /\
  (forall signals sig',
      In sig' (DailyRefresh.feed_signals Sample.world signals
                 DailyRefresh.los_angeles_feed) ->
      In sig' signals \/
      DailyRefresh.port_name sig' = DailyRefresh.Str "Unknown") /\
  DailyRefresh.port_of DailyRefresh.shanghai_feed = "Shanghai" /\
  (forall url, In url DailyRefresh.feeds ->
     (DailyRefresh.port_of url <> "Unknown" <->
      url = DailyRefresh.shanghai_feed)).
Proof.
  apply (los_angeles_feed_port_unknown Sample.world Sample.congestion_entry
           (Sample.congestion_signal "Unknown")).
  reflexivity.
Defined.

(** ** The GDELT adapter *)

Lemma isin_codes (c : DailyRefresh.cell) :
  DailyRefresh.isin c ["14"; "18"] = true <->
  c = DailyRefresh.Str "14" \/ c = DailyRefresh.Str "18".
Proof.
  destruct c as [v | s |]; simpl.
  - split; [discriminate | intros [H | H]; discriminate].
  - rewrite bool_decide_eq_true, !elem_of_cons, elem_of_nil.
    split.
    + intros [-> | [-> | []]]; [now left | now right].
    + intros [[= ->] | [= ->]]; [now left | right; now left].
  - split; [discriminate | intros [H | H]; discriminate].
Qed.

(** The filter of line 87 keeps a row exactly when its event-root cell is
    the text "14" or the text "18". *)
Lemma relevant_spec (df : list DailyRefresh.Row) (r : DailyRefresh.Row) :
  In r (DailyRefresh.relevant df) <->
  In r df /\
  (DailyRefresh.col_event_root r = DailyRefresh.Str "14" \/
   DailyRefresh.col_event_root r = DailyRefresh.Str "18").
Proof.
  unfold DailyRefresh.relevant. rewrite filter_In, isin_codes. reflexivity.
Qed.

(** C6.  The filter compares the event-root cell with the texts "14" and
    "18".  In a frame whose event-root column was read as numbers the
    row with code 14 is dropped: of two rows with code 14, one holding
    the number and one the text, only the second is kept, and for an
    export whose single row has the number 14 the adapter returns no
    record and logs a count of 0. *)
Theorem relevant_drops_numeric_codes :
  DailyRefresh.relevant
    [ Sample.row (DailyRefresh.Num (Py.Int 14));
      Sample.row (DailyRefresh.Str "14") ]
  = [ Sample.row (DailyRefresh.Str "14") ] /\
  DailyRefresh.fetch_gdelt_yesterday
    (Sample.world_gdelt (DailyRefresh.Num (Py.Int 14))) Sample.start
  = (Ok [],
     {| DailyRefresh.log :=
          [ DailyRefresh.FetchingGdelt
              "http://data.gdeltproject.org/events/20261103.export.CSV.zip";
            DailyRefresh.GdeltLoaded 0 ];
        DailyRefresh.table := [] |}) /\
  (forall (df : list DailyRefresh.Row) (r : DailyRefresh.Row),
      In r (DailyRefresh.relevant df) <->
      In r df /\
      (DailyRefresh.col_event_root r = DailyRefresh.Str "14" \/
       DailyRefresh.col_event_root r = DailyRefresh.Str "18")).
Proof.
  split; [reflexivity |]. split; [reflexivity |]. exact relevant_spec.
Qed.

(** An empty goldstein cell is read as [nan], and the impact computed
    from it is [nan]: no number at all. *)
Lemma gdelt_impact_nan (r : gmap string DailyRefresh.cell) :
  r !! "goldstein" = Some DailyRefresh.NaN ->
  DailyRefresh.gdelt_impact r = Ok DailyRefresh.NaN.
Proof. intros H. unfold DailyRefresh.gdelt_impact. now rewrite H. Qed.




(** ** The refresh *)

Lemma mapM_nil_inv {A B} (f : A -> result B) (out : list B) :
  mapM f [] = Ok out -> out = [].
Proof. now intros [= <-]. Qed.

Lemma mapM_cons_inv {A B} (f : A -> result B) (x : A) (l : list A)
    (out : list B) :
  mapM f (x :: l) = Ok out -> exists y ys, out = y :: ys.
Proof.
  simpl. destruct (f x) as [y | e]; [| discriminate]. simpl.
  destruct (mapM f l) as [ys | e]; [| discriminate]. simpl.
  intros [= <-]. now exists y, ys.
Qed.

(** C2, counterexample.  With the store out of reach the job raises
    past its boundary: the error of [create_table] on line 143 is not
    caught, and nothing was logged. *)
Lemma daily_refresh_store_down_raises :
  DailyRefresh.daily_refresh Sample.float_repr DailyRefresh.module_globals
    Sample.world_store_down Sample.start
  = (Raise (OtherError "connection refused"), Sample.start).
Proof. reflexivity. Qed.

(** The mapping loop of lines 149-160 reads [json], which the module
    never imports: with one record fetched the job stops there. *)
Lemma daily_refresh_json_unbound :
  (DailyRefresh.daily_refresh Sample.float_repr DailyRefresh.module_globals
     (Sample.world_gdelt (DailyRefresh.Str "14")) Sample.start).1
  = Raise (NameError "json").
Proof. reflexivity. Qed.

(** Whatever the GDELT download and the feeds do, when the store calls
    succeed and every record the GDELT adapter returned is mapped, the
    job completes. *)
Lemma daily_refresh_runs (float_repr : Q -> string)
    (G : DailyRefresh.Globals) (W : DailyRefresh.World)
    (s : DailyRefresh.State) (mapped : list DailyRefresh.SignalRecord) :
  DailyRefresh.create_table_outcome W = Ok tt ->
  (forall batch, DailyRefresh.insert_dataframe W batch = Ok tt) ->
  mapM (DailyRefresh.map_record float_repr G) (DailyRefresh.gdelt_records W)
  = Ok mapped ->
  exists s',
    DailyRefresh.daily_refresh float_repr G W s = (Ok tt, s') /\
    DailyRefresh.table s'
    = (DailyRefresh.table s ++ mapped
       ++ DailyRefresh.marinetraffic_signals W)%list /\
    (exists l,
        DailyRefresh.log s'
        = (DailyRefresh.log s ++ l
           ++ [DailyRefresh.AcledStub; DailyRefresh.RefreshComplete])%list) /\
    (mapped <> [] ->
     In (DailyRefresh.InsertedGdelt (length mapped)) (DailyRefresh.log s')) /\
    (DailyRefresh.marinetraffic_signals W <> [] ->
     In (DailyRefresh.InsertedMarineTraffic
           (length (DailyRefresh.marinetraffic_signals W)))
        (DailyRefresh.log s')).
Proof.
  intros Hcreate Hinsert Hmap.
  unfold DailyRefresh.daily_refresh, DailyRefresh.lift, DailyRefresh.insert,
    DailyRefresh.logging.
  unfold mbind, DailyRefresh.M_bind, mret, DailyRefresh.M_ret.
  rewrite Hcreate. simpl.
  destruct (fetch_gdelt_yesterday_returns W
              {| DailyRefresh.log := DailyRefresh.log s ++ [DailyRefresh.TableReady];
                 DailyRefresh.table := DailyRefresh.table s |}) as (l1 & ->).
  simpl.
  destruct (DailyRefresh.gdelt_records W) as [| r rs] eqn:Hrecords.
  - apply mapM_nil_inv in Hmap. subst mapped.
    match goal with
    | |- context [DailyRefresh.parse_marinetraffic_rss W ?st] =>
        destruct (parse_marinetraffic_rss_returns W st) as (l2 & ->)
    end.
    simpl.
    destruct (DailyRefresh.marinetraffic_signals W) as [| m ms] eqn:Hmt.
    + eexists. split; [reflexivity |]. simpl.
      split; [now rewrite app_nil_r |].
      split; [| split; [intros Hne; now contradict Hne
                       | intros Hne; now contradict Hne]].
      exists ([DailyRefresh.TableReady] ++ l1 ++ l2)%list.
      rewrite <- !app_assoc. reflexivity.
    + rewrite Hinsert. eexists. split; [reflexivity |]. simpl.
      split; [reflexivity |].
      split; [| split; [intros Hne; now contradict Hne |]].
      * exists ([DailyRefresh.TableReady] ++ l1 ++ l2
                ++ [DailyRefresh.InsertedMarineTraffic (S (length ms))])%list.
        rewrite <- !app_assoc. reflexivity.
      * intros _. rewrite !in_app_iff. left. left. right. now left.
  - destruct (mapM_cons_inv _ _ _ _ Hmap) as (y & ys & ->).
    rewrite Hmap. rewrite Hinsert. simpl.
    match goal with
    | |- context [DailyRefresh.parse_marinetraffic_rss W ?st] =>
        destruct (parse_marinetraffic_rss_returns W st) as (l2 & ->)
    end.
    simpl.
    destruct (DailyRefresh.marinetraffic_signals W) as [| m ms] eqn:Hmt.
    + eexists. split; [reflexivity |]. simpl.
      split; [now rewrite app_nil_r |].
      split; [| split; [| intros Hne; now contradict Hne]].
      * exists ([DailyRefresh.TableReady] ++ l1
                ++ [DailyRefresh.InsertedGdelt (S (length ys))] ++ l2)%list.
        rewrite <- !app_assoc. reflexivity.
      * intros _. rewrite !in_app_iff. left. left. left. right. now left.
    + rewrite Hinsert. eexists. split; [reflexivity |]. simpl.
      split; [now rewrite <- app_assoc |].
      split; [| split].
      * exists ([DailyRefresh.TableReady] ++ l1
                ++ [DailyRefresh.InsertedGdelt (S (length ys))] ++ l2
                ++ [DailyRefresh.InsertedMarineTraffic (S (length ms))])%list.
        rewrite <- !app_assoc. reflexivity.
      * intros _. rewrite !in_app_iff. left. left. left. left. right. now left.
      * intros _. rewrite !in_app_iff. left. left. right. now left.
Qed.

(** C2, amended.  A failed GDELT download is caught inside the GDELT
    adapter, which then returns no record, and a failed feed is caught
    inside the MarineTraffic adapter, which keeps the signals it has and
    goes on with the next feed; neither adapter raises.  Whatever the
    download and the feeds do, when the store calls succeed and every
    record the GDELT adapter returned is mapped, the job completes: it
    appends the mapped GDELT records and then the MarineTraffic signals
    to the table, logs the insert count of each source that produced
    rows, and ends its log with the ACLED note and the completion
    message. *)
Theorem daily_refresh_completes (float_repr : Q -> string)
    (G : DailyRefresh.Globals) (W : DailyRefresh.World)
    (s : DailyRefresh.State) (mapped : list DailyRefresh.SignalRecord) :
  DailyRefresh.create_table_outcome W = Ok tt ->
  (forall batch, DailyRefresh.insert_dataframe W batch = Ok tt) ->
  mapM (DailyRefresh.map_record float_repr G) (DailyRefresh.gdelt_records W)
  = Ok mapped ->
  (forall st, (DailyRefresh.fetch_gdelt_yesterday W st).1
              = Ok (DailyRefresh.gdelt_records W)) /\
  (forall e, DailyRefresh.gdelt_export W = Raise e ->
             DailyRefresh.gdelt_records W = []) /\
  (forall st, (DailyRefresh.parse_marinetraffic_rss W st).1
              = Ok (DailyRefresh.marinetraffic_signals W)) /\
  (forall url signals e st,
      DailyRefresh.parse_rss W url = Raise e ->
      (DailyRefresh.scan_feed W url signals st).1 = Ok signals) /\
  exists s',
    DailyRefresh.daily_refresh float_repr G W s = (Ok tt, s') /\
    DailyRefresh.table s'
    = (DailyRefresh.table s ++ mapped
       ++ DailyRefresh.marinetraffic_signals W)%list /\
    (exists l,
        DailyRefresh.log s'
        = (DailyRefresh.log s ++ l
           ++ [DailyRefresh.AcledStub; DailyRefresh.RefreshComplete])%list) /\
    (mapped <> [] ->
     In (DailyRefresh.InsertedGdelt (length mapped)) (DailyRefresh.log s')) /\
    (DailyRefresh.marinetraffic_signals W <> [] ->
     In (DailyRefresh.InsertedMarineTraffic
           (length (DailyRefresh.marinetraffic_signals W)))
        (DailyRefresh.log s')).
Proof.
  intros Hcreate Hinsert Hmap.
  split; [| split; [| split; [| split]]].
  - intros st. destruct (fetch_gdelt_yesterday_returns W st) as (l & ->).
    reflexivity.
  - intros e He. unfold DailyRefresh.gdelt_records. now rewrite He.
  - intros st. destruct (parse_marinetraffic_rss_returns W st) as (l & ->).
    reflexivity.
  - intros url signals e st He.
    destruct (scan_feed_returns W url signals st) as (l & ->). simpl.
    unfold DailyRefresh.feed_signals. now rewrite He.
  - now apply daily_refresh_runs.
Qed.

Lemma daily_refresh_completes_witness :
  (forall st, (DailyRefresh.fetch_gdelt_yesterday Sample.world st).1
              = Ok (DailyRefresh.gdelt_records Sample.world)) /\
  (forall e, DailyRefresh.gdelt_export Sample.world = Raise e ->
             DailyRefresh.gdelt_records Sample.world = []) /\
  (forall st, (DailyRefresh.parse_marinetraffic_rss Sample.world st).1
              = Ok (DailyRefresh.marinetraffic_signals Sample.world)) /\
  (forall url signals e st,
      DailyRefresh.parse_rss Sample.world url = Raise e ->
      (DailyRefresh.scan_feed Sample.world url signals st).1 = Ok signals) /\
  exists s',
    DailyRefresh.daily_refresh Sample.float_repr DailyRefresh.module_globals
      Sample.world Sample.start = (Ok tt, s') /\
    DailyRefresh.table s'
    = (DailyRefresh.table Sample.start ++ []
       ++ DailyRefresh.marinetraffic_signals Sample.world)%list /\
    (exists l,
        DailyRefresh.log s'
        = (DailyRefresh.log Sample.start ++ l
           ++ [DailyRefresh.AcledStub; DailyRefresh.RefreshComplete])%list) /\
    (@nil DailyRefresh.SignalRecord <> [] ->
     In (DailyRefresh.InsertedGdelt (length (@nil DailyRefresh.SignalRecord)))
        (DailyRefresh.log s')) /\
    (DailyRefresh.marinetraffic_signals Sample.world <> [] ->
     In (DailyRefresh.InsertedMarineTraffic
           (length (DailyRefresh.marinetraffic_signals Sample.world)))
        (DailyRefresh.log s')).
Proof.
  apply (daily_refresh_completes Sample.float_repr DailyRefresh.module_globals
           Sample.world Sample.start []).
  - reflexivity.
  - intros batch. reflexivity.
  - reflexivity.
Defined.

(** * Further properties of the endpoint *)

Section EndpointProperties.

Variable float_repr : Q -> string.



Lemma forecast_loop_horizon G ps h1 h2 kw todo :
  forall results,
    Main.forecast_loop float_repr G
      {| Main.ports := ps; Main.horizon_days := h1; Main.keywords := kw |}
      todo results
    = Main.forecast_loop float_repr G
        {| Main.ports := ps; Main.horizon_days := h2; Main.keywords := kw |}
        todo results.
Proof.
  induction todo as [| p rest IH]; intros results; [reflexivity |].
  simpl.
  destruct (Main.get_port_congestion G) as [f |]; [| reflexivity]. simpl.
  destruct (f p) as [c | e]; [| reflexivity]. simpl.
  destruct (Main.get_gdelt_signals G) as [g |]; [| reflexivity]. simpl.
  destruct (g p (default [] kw)) as [d | e]; [| reflexivity]. simpl.
  apply IH.
Qed.

End EndpointProperties.

(** X1.  Line 37 compares the header with [settings.API_KEY]: a request
    whose header differs from the configured value is rejected with
    HTTP 401 "Invalid API key", whatever the query and the sources are.
    A missing header reads as Python's [None], and so does a key that
    is not configured: when a key is configured, a request without the
    header, or with another text in it, is rejected. *)
Theorem forecast_disruption_unauthorized (float_repr : Q -> string)
    (G : Main.Globals) (configured : option string)
    (query : Main.ForecastQuery) (x_api_key : option string) :
  Main.settings G = Some configured ->
  x_api_key <> configured ->
  Main.forecast_disruption float_repr G query x_api_key
  = Raise (HTTPException 401 "Invalid API key").
Proof.
  intros Hk Hne. unfold Main.forecast_disruption. rewrite Hk. simpl.
  now rewrite bool_decide_eq_false_2.
Qed.

Lemma forecast_disruption_unauthorized_witness :
  Main.forecast_disruption Sample.float_repr Sample.bound_globals
    (Sample.query ["Shanghai"]) None
  = Raise (HTTPException 401 "Invalid API key").
Proof.
  apply (forecast_disruption_unauthorized Sample.float_repr
           Sample.bound_globals (Some "secret") (Sample.query ["Shanghai"])
           None).
  - reflexivity.
  - discriminate.
Defined.





(** X4.  [horizon_days] is never read: two requests that differ only in
    it get the same outcome. *)
Theorem horizon_days_unused (float_repr : Q -> string) (G : Main.Globals)
    (ps : list string) (h1 h2 : Z) (kw : option (list string))
    (x_api_key : option string) :
  Main.forecast_disruption float_repr G
    {| Main.ports := ps; Main.horizon_days := h1; Main.keywords := kw |}
    x_api_key
  = Main.forecast_disruption float_repr G
      {| Main.ports := ps; Main.horizon_days := h2; Main.keywords := kw |}
      x_api_key.
Proof.
  unfold Main.forecast_disruption. simpl.
  destruct (Main.settings G) as [key |]; [| reflexivity]. simpl.
  destruct (bool_decide (x_api_key = key)); [| reflexivity].
  now rewrite (forecast_loop_horizon float_repr G ps h1 h2 kw ps []).
Qed.

(** ** Rounding, delay and banding *)


(** X6.  A predicted delay [d] is never below 4 days; it is the floor
    of the double-precision quotient score / 5, and for a score below
    2^53 it brackets the score: 5 d <= score < 5 (d + 1). *)
Theorem predicted_delay_bounds (float_repr : Q -> string) (port : string)
    (congestion gdelt_signals : gmap string Py.num) (d : Z) :
  Main.predicted_delay_days
    (Main.forecast_result float_repr port congestion gdelt_signals)
  = Some d ->
  let score := Py.to_Q (Main.score_of congestion gdelt_signals) in
  (4 <= d)%Z /\
  d = Qfloor (Py.double (score / 5)) /\
  ((score < inject_Z (2 ^ 53))%Q ->
   (inject_Z d * 5 <= score)%Q /\ (score < (inject_Z d + 1) * 5)%Q).
Proof.
  intros Hd score.
  cbn [Main.forecast_result Main.predicted_delay_days] in Hd.
  destruct (delay_of_spec _ _ Hd) as [H20 Ed]. fold score in H20, Ed.
  split; [| split; [exact Ed |]].
  - rewrite Ed. apply floor_double_ge; [lia |].
    change (inject_Z 4) with 4%Q. apply Qle_shift_div_l; lra.
  - intros Hb.
    assert (Hr : (Py.double score == score)%Q)
      by (apply score_of_double; assumption).
    rewrite (double_div5_floor score Hr H20 Hb) in Ed. subst d.
    pose proof (Qfloor_le (score / 5)) as Hlo.
    pose proof (Qlt_floor (score / 5)) as Hhi.
    rewrite inject_Z_plus in Hhi. change (inject_Z 1) with 1%Q in Hhi.
    set (q := inject_Z (Qfloor (score / 5))) in *.
    assert (E5 : (score == score / 5 * 5)%Q) by (now field).
    split; rewrite E5; lra.
Qed.

Lemma predicted_delay_bounds_witness :
  let score :=
    Py.to_Q (Main.score_of {[ "risk" := Py.Int 25 ]}
               {[ "risk" := Py.Float (355 # 10) ]}) in
  (4 <= 12)%Z /\
  12%Z = Qfloor (Py.double (score / 5)) /\
  ((score < inject_Z (2 ^ 53))%Q ->
   (inject_Z 12 * 5 <= score)%Q /\ (score < (inject_Z 12 + 1) * 5)%Q).
Proof.
  apply (predicted_delay_bounds Sample.float_repr "Shanghai"
           {[ "risk" := Py.Int 25 ]} {[ "risk" := Py.Float (355 # 10) ]} 12).
  reflexivity.
Defined.

(** X7.  Level, delay and recommendations of one result agree: a "High"
    result advises rerouting and predicts at least 12 days; a "Medium"
    result predicts between 6 and 12 days; a "Low" result only says
    "Monitor"; and a result without a delay is "Low". *)
Theorem level_delay_recommendations :
  forall (float_repr : Q -> string) (port : string)
         (congestion gdelt_signals : gmap string Py.num),
    let r :=
      Main.forecast_result float_repr port congestion gdelt_signals in
    (Main.risk_level r = "High" ->
     Main.recommendations r
     = ["Reroute via alternative port"; "Increase buffer stock"] /\
     exists d, Main.predicted_delay_days r = Some d /\ (12 <= d)%Z) /\
    (Main.risk_level r = "Medium" ->
     exists d, Main.predicted_delay_days r = Some d /\ (6 <= d <= 12)%Z) /\
    (Main.risk_level r = "Low" -> Main.recommendations r = ["Monitor"]) /\
    (Main.predicted_delay_days r = None ->
     Main.risk_level r = "Low" /\ Main.recommendations r = ["Monitor"]).
Proof.
  intros float_repr port congestion gdelt_signals.
  cbn [Main.forecast_result Main.risk_level Main.recommendations
       Main.predicted_delay_days].
  set (s := Main.score_of congestion gdelt_signals).
  assert (Hdelay : forall lo,
             (0 <= lo < 2 ^ 53)%Z ->
             (inject_Z lo * 5 <= Py.to_Q s)%Q -> (20 < Py.to_Q s)%Q ->
             exists d, Main.delay_of s = Some d /\ (lo <= d)%Z).
  { intros lo Hr Hlo H4. rewrite (delay_of_present _ H4).
    eexists. split; [reflexivity |].
    apply floor_double_ge; [exact Hr |].
    apply Qle_shift_div_l; lra. }
  unfold Main.level_of, Main.recommendations_of.
  destruct (Py.gt s 60) eqn:E60; [| destruct (Py.gt s 30) eqn:E30].
  - apply gt_spec in E60. change (inject_Z 60) with 60%Q in E60.
    assert (E50 : Py.gt s 50 = true).
    { apply gt_spec. change (inject_Z 50) with 50%Q. lra. }
    rewrite E50.
    destruct (Hdelay 12%Z) as (d & Hd & Hge);
      [lia | change (inject_Z 12) with 12%Q; lra | lra |].
    rewrite Hd.
    split; [intros _; split; [reflexivity | now exists d] |].
    split; [discriminate |]. split; discriminate.
  - apply gt_false_spec in E60. apply gt_spec in E30.
    change (inject_Z 60) with 60%Q in E60.
    change (inject_Z 30) with 30%Q in E30.
    destruct (Hdelay 6%Z) as (d & Hd & Hge);
      [lia | change (inject_Z 6) with 6%Q; lra | lra |].
    rewrite Hd.
    split; [discriminate |]. split; [| split; discriminate].
    intros _. exists d. split; [reflexivity |]. split; [exact Hge |].
    destruct (delay_of_spec _ _ Hd) as [H20 ->].
    apply floor_double_le; [lia | apply Qle_shift_div_l; lra |].
    change (inject_Z 12) with 12%Q. apply Qle_shift_div_r; lra.
  - apply gt_false_spec in E30. change (inject_Z 30) with 30%Q in E30.
    assert (E50 : Py.gt s 50 = false).
    { apply gt_false_spec. change (inject_Z 50) with 50%Q. lra. }
    rewrite E50.
    split; [discriminate |]. split; [discriminate |].
    split; [reflexivity |]. intros _. split; reflexivity.
Qed.



(** * Further properties of the ingestion job *)

(** ** Records of the GDELT adapter *)

Lemma to_dict_lookups (row : DailyRefresh.Row) :
  DailyRefresh.to_dict row !! "id" = Some (DailyRefresh.col_id row) /\
  DailyRefresh.to_dict row !! "sqldate"
  = Some (DailyRefresh.col_sqldate row) /\
  DailyRefresh.to_dict row !! "country"
  = Some (DailyRefresh.col_country row) /\
  DailyRefresh.to_dict row !! "event_root"
  = Some (DailyRefresh.col_event_root row) /\
  DailyRefresh.to_dict row !! "goldstein"
  = Some (DailyRefresh.col_goldstein row) /\
  DailyRefresh.to_dict row !! "location"
  = Some (DailyRefresh.col_location row) /\
  DailyRefresh.to_dict row !! "event_base"
  = Some (DailyRefresh.col_event_base row) /\
  DailyRefresh.to_dict row !! "source_url"
  = Some (DailyRefresh.col_source_url row).
Proof. repeat split; reflexivity. Qed.

Lemma gdelt_records_from (W : DailyRefresh.World)
    (r : gmap string DailyRefresh.cell) :
  In r (DailyRefresh.gdelt_records W) ->
  exists df row,
    DailyRefresh.gdelt_export W = Ok df /\ In row df /\
    (DailyRefresh.col_event_root row = DailyRefresh.Str "14" \/
     DailyRefresh.col_event_root row = DailyRefresh.Str "18") /\
    r = DailyRefresh.to_dict row.
Proof.
  unfold DailyRefresh.gdelt_records.
  destruct (DailyRefresh.gdelt_export W) as [df | e]; [| intros []].
  intros Hin. apply list_elem_of_In, list_elem_of_fmap in Hin.
  destruct Hin as (row & -> & Hrow).
  apply list_elem_of_In, relevant_spec in Hrow. destruct Hrow as [Hdf Hcode].
  now exists df, row.
Qed.

(** X9.  Every record [fetch_gdelt_yesterday] returns comes from a row
    of the export whose event-root cell is the text "14" or "18", and
    holds all eight columns of that row under their names. *)
Theorem fetched_records_complete (W : DailyRefresh.World)
    (s s' : DailyRefresh.State)
    (records : list (gmap string DailyRefresh.cell))
    (r : gmap string DailyRefresh.cell) :
  DailyRefresh.fetch_gdelt_yesterday W s = (Ok records, s') ->
  In r records ->
  exists df row,
    DailyRefresh.gdelt_export W = Ok df /\ In row df /\
    (r !! "event_root" = Some (DailyRefresh.Str "14") \/
     r !! "event_root" = Some (DailyRefresh.Str "18")) /\
    r !! "id" = Some (DailyRefresh.col_id row) /\
    r !! "sqldate" = Some (DailyRefresh.col_sqldate row) /\
    r !! "country" = Some (DailyRefresh.col_country row) /\
    r !! "event_root" = Some (DailyRefresh.col_event_root row) /\
    r !! "goldstein" = Some (DailyRefresh.col_goldstein row) /\
    r !! "location" = Some (DailyRefresh.col_location row) /\
    r !! "event_base" = Some (DailyRefresh.col_event_base row) /\
    r !! "source_url" = Some (DailyRefresh.col_source_url row).
Proof.
  intros Hrun Hin.
  destruct (fetch_gdelt_yesterday_returns W s) as (l & Hret).
  rewrite Hret in Hrun. injection Hrun as <- _.
  destruct (gdelt_records_from W r Hin) as (df & row & Hdf & Hrow & Hcode & ->).
  exists df, row. split; [exact Hdf |]. split; [exact Hrow |].
  split; [| apply to_dict_lookups].
  destruct (to_dict_lookups row) as (_ & _ & _ & Hroot & _).
  rewrite Hroot. destruct Hcode as [-> | ->]; [now left | now right].
Qed.

Lemma fetched_records_complete_witness :
  exists df row,
    DailyRefresh.gdelt_export
      (Sample.world_gdelt (DailyRefresh.Str "18")) = Ok df /\
    In row df /\
    (DailyRefresh.to_dict (Sample.row (DailyRefresh.Str "18"))
       !! "event_root" = Some (DailyRefresh.Str "14") \/
     DailyRefresh.to_dict (Sample.row (DailyRefresh.Str "18"))
       !! "event_root" = Some (DailyRefresh.Str "18")) /\
    DailyRefresh.to_dict (Sample.row (DailyRefresh.Str "18")) !! "id"
    = Some (DailyRefresh.col_id row) /\
    DailyRefresh.to_dict (Sample.row (DailyRefresh.Str "18")) !! "sqldate"
    = Some (DailyRefresh.col_sqldate row) /\
    DailyRefresh.to_dict (Sample.row (DailyRefresh.Str "18")) !! "country"
    = Some (DailyRefresh.col_country row) /\
    DailyRefresh.to_dict (Sample.row (DailyRefresh.Str "18")) !! "event_root"
    = Some (DailyRefresh.col_event_root row) /\
    DailyRefresh.to_dict (Sample.row (DailyRefresh.Str "18")) !! "goldstein"
    = Some (DailyRefresh.col_goldstein row) /\
    DailyRefresh.to_dict (Sample.row (DailyRefresh.Str "18")) !! "location"
    = Some (DailyRefresh.col_location row) /\
    DailyRefresh.to_dict (Sample.row (DailyRefresh.Str "18")) !! "event_base"
    = Some (DailyRefresh.col_event_base row) /\
    DailyRefresh.to_dict (Sample.row (DailyRefresh.Str "18")) !! "source_url"
    = Some (DailyRefresh.col_source_url row).
Proof.
  apply (fetched_records_complete
           (Sample.world_gdelt (DailyRefresh.Str "18")) Sample.start
           (DailyRefresh.fetch_gdelt_yesterday
              (Sample.world_gdelt (DailyRefresh.Str "18")) Sample.start).2
           [DailyRefresh.to_dict (Sample.row (DailyRefresh.Str "18"))]
           (DailyRefresh.to_dict (Sample.row (DailyRefresh.Str "18")))).
  - reflexivity.
  - left. reflexivity.
Defined.

Lemma fetch_gdelt_yesterday_exact (W : DailyRefresh.World)
    (s : DailyRefresh.State) :
  DailyRefresh.fetch_gdelt_yesterday W s
  = (Ok (DailyRefresh.gdelt_records W),
     {| DailyRefresh.log :=
          DailyRefresh.log s ++
          [ DailyRefresh.FetchingGdelt
              ("http://data.gdeltproject.org/events/"
               ++ DailyRefresh.yesterday W ++ ".export.CSV.zip");
            match DailyRefresh.gdelt_export W with
            | Ok _ =>
                DailyRefresh.GdeltLoaded
                  (length (DailyRefresh.gdelt_records W))
            | Raise e => DailyRefresh.GdeltFailed e
            end ];
        DailyRefresh.table := DailyRefresh.table s |}).
Proof.
  unfold DailyRefresh.fetch_gdelt_yesterday, DailyRefresh.gdelt_records,
    DailyRefresh.try_except, DailyRefresh.lift, DailyRefresh.logging.
  unfold mbind, DailyRefresh.M_bind, mret, DailyRefresh.M_ret. simpl.
  destruct (DailyRefresh.gdelt_export W) as [df | e]; simpl;
    rewrite <- app_assoc; reflexivity.
Qed.

(** X10.  [fetch_gdelt_yesterday] never raises and never touches the
    table.  It logs the URL it fetches and then one more line: after a
    failed download the failure, with no record returned; otherwise the
    number of records it returns, which is at most the number of rows
    of the export. *)
Theorem fetch_gdelt_yesterday_log :
  forall (W : DailyRefresh.World) (s : DailyRefresh.State),
  exists records line,
    DailyRefresh.fetch_gdelt_yesterday W s
    = (Ok records,
       {| DailyRefresh.log :=
            DailyRefresh.log s ++
            [ DailyRefresh.FetchingGdelt
                ("http://data.gdeltproject.org/events/"
                 ++ DailyRefresh.yesterday W ++ ".export.CSV.zip");
              line ];
          DailyRefresh.table := DailyRefresh.table s |}) /\
    match DailyRefresh.gdelt_export W with
    | Ok df =>
        line = DailyRefresh.GdeltLoaded (length records) /\
        length records <= length df
    | Raise e => line = DailyRefresh.GdeltFailed e /\ records = []
    end.
Proof.
  intros W s. eexists. eexists. split; [apply fetch_gdelt_yesterday_exact |].
  unfold DailyRefresh.gdelt_records, DailyRefresh.relevant.
  destruct (DailyRefresh.gdelt_export W) as [df | e].
  - split; [reflexivity |]. rewrite length_fmap. apply filter_length_le.
  - split; reflexivity.
Qed.

(** ** Mapping a GDELT record *)

(** X11.  A record from the export is mapped field by field: the
    location, country and event-root cells become [port_name],
    [country] and [event_type], the date is the printed [sqldate]
    cell, the description quotes the [id] and [goldstein] cells, and
    the source is "GDELT".  The defaults "Unknown" and [None] are never
    used for such a record. *)
Theorem map_record_fields (float_repr : Q -> string)
    (G : DailyRefresh.Globals) (row : DailyRefresh.Row)
    (sig : DailyRefresh.SignalRecord) :
  DailyRefresh.map_record float_repr G (DailyRefresh.to_dict row) = Ok sig ->
  DailyRefresh.source sig = "GDELT" /\
  DailyRefresh.port_name sig = DailyRefresh.col_location row /\
  DailyRefresh.country sig = DailyRefresh.col_country row /\
  DailyRefresh.event_type sig = DailyRefresh.col_event_root row /\
  DailyRefresh.event_date sig
  = DailyRefresh.str float_repr (DailyRefresh.col_sqldate row) /\
  DailyRefresh.description sig
  = "Event ID " ++ DailyRefresh.str float_repr (DailyRefresh.col_id row)
    ++ ", Goldstein "
    ++ DailyRefresh.str float_repr (DailyRefresh.col_goldstein row).
Proof.
  unfold DailyRefresh.map_record, DailyRefresh.fmt.
  destruct (to_dict_lookups row)
    as (Hid & Hdate & Hcountry & Hroot & Hgold & Hloc & _).
  rewrite Hid, Hdate, Hcountry, Hroot, Hgold, Hloc.
  destruct (DailyRefresh.gdelt_impact (DailyRefresh.to_dict row))
    as [impact | e]; [| discriminate]. simpl.
  destruct (DailyRefresh.json G) as [dumps |]; [| discriminate]. simpl.
  destruct (dumps (DailyRefresh.to_dict row)) as [raw | e];
    [| discriminate]. simpl.
  intros [= <-]. repeat split; reflexivity.
Qed.

Lemma map_record_fields_witness :
  DailyRefresh.source
    {| DailyRefresh.source := "GDELT";
       DailyRefresh.port_name :=
         DailyRefresh.Str "Los Angeles, California, United States";
       DailyRefresh.country := DailyRefresh.Str "USA";
       DailyRefresh.event_type := DailyRefresh.Str "14";
       DailyRefresh.description := "Event ID 1, Goldstein 0.0";
       DailyRefresh.event_date := "20261103";
       DailyRefresh.impact_score :=
         DailyRefresh.Num (Py.mul (Py.abs (Py.Float (-65 # 10))) 5);
       DailyRefresh.raw_data := "{}" |} = "GDELT" /\
  DailyRefresh.Str "Los Angeles, California, United States"
  = DailyRefresh.col_location (Sample.row (DailyRefresh.Str "14")) /\
  DailyRefresh.Str "USA"
  = DailyRefresh.col_country (Sample.row (DailyRefresh.Str "14")) /\
  DailyRefresh.Str "14"
  = DailyRefresh.col_event_root (Sample.row (DailyRefresh.Str "14")) /\
  "20261103"
  = DailyRefresh.str Sample.float_repr
      (DailyRefresh.col_sqldate (Sample.row (DailyRefresh.Str "14"))) /\
  "Event ID 1, Goldstein 0.0"
  = "Event ID "
    ++ DailyRefresh.str Sample.float_repr
         (DailyRefresh.col_id (Sample.row (DailyRefresh.Str "14")))
    ++ ", Goldstein "
    ++ DailyRefresh.str Sample.float_repr
         (DailyRefresh.col_goldstein (Sample.row (DailyRefresh.Str "14"))).
Proof.
  apply (map_record_fields Sample.float_repr Sample.json_globals
           (Sample.row (DailyRefresh.Str "14"))
           {| DailyRefresh.source := "GDELT";
              DailyRefresh.port_name :=
                DailyRefresh.Str "Los Angeles, California, United States";
              DailyRefresh.country := DailyRefresh.Str "USA";
              DailyRefresh.event_type := DailyRefresh.Str "14";
              DailyRefresh.description := "Event ID 1, Goldstein 0.0";
              DailyRefresh.event_date := "20261103";
              DailyRefresh.impact_score :=
         DailyRefresh.Num (Py.mul (Py.abs (Py.Float (-65 # 10))) 5);
              DailyRefresh.raw_data := "{}" |}).
  reflexivity.
Defined.

(** X12.  A record whose goldstein value is a text cannot be mapped:
    [abs] raises [TypeError], before [json] is even looked up.  A record
    without a goldstein key gets impact 0. *)
Theorem map_record_goldstein_edges :
  forall (float_repr : Q -> string) (G : DailyRefresh.Globals)
         (r : gmap string DailyRefresh.cell),
    (forall text, r !! "goldstein" = Some (DailyRefresh.Str text) ->
       DailyRefresh.map_record float_repr G r
       = Raise (TypeError "bad operand type for abs(): 'str'")) /\
    (r !! "goldstein" = None ->
     DailyRefresh.gdelt_impact r = Ok (DailyRefresh.Num (Py.Int 0)) /\
     forall sig, DailyRefresh.map_record float_repr G r = Ok sig ->
                 DailyRefresh.impact_score sig
                 = DailyRefresh.Num (Py.Int 0)).
Proof.
  intros float_repr G r. split.
  - intros text Hg. unfold DailyRefresh.map_record, DailyRefresh.gdelt_impact.
    rewrite Hg. reflexivity.
  - intros Hg. unfold DailyRefresh.map_record, DailyRefresh.gdelt_impact.
    rewrite Hg. split; [reflexivity |]. simpl.
    destruct (DailyRefresh.json G) as [dumps |]; [| discriminate]. simpl.
    destruct (dumps r) as [raw | e]; [| discriminate]. simpl.
    now intros sig [= <-].
Qed.

(** In the module as it stands no record is mapped. *)
Lemma map_record_unbound_json (float_repr : Q -> string)
    (r : gmap string DailyRefresh.cell) :
  DailyRefresh.map_record float_repr DailyRefresh.module_globals r
  = Raise (NameError "json") \/
  DailyRefresh.map_record float_repr DailyRefresh.module_globals r
  = Raise (TypeError "bad operand type for abs(): 'str'").
Proof.
  unfold DailyRefresh.map_record, DailyRefresh.gdelt_impact.
  destruct (default _ (r !! "goldstein")) as [v | text |]; simpl.
  - now left.
  - now right.
  - now left.
Qed.

(** X13.  As the module stands, a run in which the GDELT adapter returns
    at least one record stops in the mapping loop: the job raises
    [NameError] for [json] (or [TypeError] when the first record's
    goldstein is a text), the table is left as it was, and the feeds
    are never read: the log ends with the count of GDELT records. *)
Theorem daily_refresh_stops_at_mapping (float_repr : Q -> string)
    (W : DailyRefresh.World) (s : DailyRefresh.State)
    (r : gmap string DailyRefresh.cell)
    (rest : list (gmap string DailyRefresh.cell)) :
  DailyRefresh.create_table_outcome W = Ok tt ->
  DailyRefresh.gdelt_records W = r :: rest ->
  exists e,
    DailyRefresh.daily_refresh float_repr DailyRefresh.module_globals W s
    = (Raise e,
       {| DailyRefresh.log :=
            DailyRefresh.log s ++
            [ DailyRefresh.TableReady;
              DailyRefresh.FetchingGdelt
                ("http://data.gdeltproject.org/events/"
                 ++ DailyRefresh.yesterday W ++ ".export.CSV.zip");
              DailyRefresh.GdeltLoaded (S (length rest)) ];
          DailyRefresh.table := DailyRefresh.table s |}) /\
    (e = NameError "json" \/
     e = TypeError "bad operand type for abs(): 'str'").
Proof.
  intros Hcreate Hrecords.
  assert (Hexport : exists df, DailyRefresh.gdelt_export W = Ok df).
  { unfold DailyRefresh.gdelt_records in Hrecords.
    destruct (DailyRefresh.gdelt_export W) as [df | e];
      [now exists df | discriminate]. }
  destruct Hexport as (df & Hexport).
  unfold DailyRefresh.daily_refresh, DailyRefresh.lift, DailyRefresh.logging.
  unfold mbind, DailyRefresh.M_bind, mret, DailyRefresh.M_ret.
  rewrite Hcreate. simpl.
  rewrite fetch_gdelt_yesterday_exact, Hexport, Hrecords. simpl.
  rewrite <- app_assoc. simpl.
  destruct (map_record_unbound_json float_repr r) as [-> | ->]; simpl;
    eexists; (split; [reflexivity |]); [now left | now right].
Qed.

Lemma daily_refresh_stops_at_mapping_witness :
  exists e,
    DailyRefresh.daily_refresh Sample.float_repr DailyRefresh.module_globals
      (Sample.world_gdelt (DailyRefresh.Str "18")) Sample.start
    = (Raise e,
       {| DailyRefresh.log :=
            DailyRefresh.log Sample.start ++
            [ DailyRefresh.TableReady;
              DailyRefresh.FetchingGdelt
                ("http://data.gdeltproject.org/events/"
                 ++ DailyRefresh.yesterday
                      (Sample.world_gdelt (DailyRefresh.Str "18"))
                 ++ ".export.CSV.zip");
              DailyRefresh.GdeltLoaded
                (S (length (@nil (gmap string DailyRefresh.cell)))) ];
          DailyRefresh.table := DailyRefresh.table Sample.start |}) /\
    (e = NameError "json" \/
     e = TypeError "bad operand type for abs(): 'str'").
Proof.
  apply (daily_refresh_stops_at_mapping Sample.float_repr
           (Sample.world_gdelt (DailyRefresh.Str "18")) Sample.start
           (DailyRefresh.to_dict (Sample.row (DailyRefresh.Str "18"))) []).
  - reflexivity.
  - reflexivity.
Defined.

(** ** The MarineTraffic adapter, further *)

Lemma lower_app (a b : string) :
  Text.lower (a ++ b) = Text.lower a ++ Text.lower b.
Proof.
  induction a as [| c a IH]; [reflexivity |].
  change (Text.lower (String c a ++ b))
    with (String (Text.lower_char c) (Text.lower (a ++ b))).
  now rewrite IH.
Qed.

(** X14.  Keywords are found whatever their case: an entry whose title
    contains some spelling of a keyword, in any mix of upper and lower
    case, and which has a link, yields a signal; the signal keeps the
    title as written and the link. *)
Theorem keyword_any_case (W : DailyRefresh.World) (url : string)
    (entry : DailyRefresh.Entry) (k spelled pre post raw : string) :
  In k DailyRefresh.vocabulary ->
  Text.lower spelled = k ->
  DailyRefresh.entry_title entry = Some (pre ++ spelled ++ post) ->
  DailyRefresh.entry_link entry = Some raw ->
  exists sig,
    DailyRefresh.entry_signal W url entry = Ok (Some sig) /\
    DailyRefresh.raw_data sig = raw /\
    DailyRefresh.description sig
    = (pre ++ spelled ++ post) ++ " - "
      ++ default "" (DailyRefresh.entry_summary entry).
Proof.
  intros Hk Hlow Htitle Hlink. unfold DailyRefresh.entry_signal.
  rewrite Htitle. simpl.
  assert (Hm : DailyRefresh.mentions (Text.lower (pre ++ spelled ++ post))
                 (Text.lower (default "" (DailyRefresh.entry_summary entry)))
               = true).
  { apply mentions_spec. exists k. split; [exact Hk |]. left.
    apply contains_spec. exists (Text.lower pre), (Text.lower post).
    now rewrite !lower_app, Hlow. }
  rewrite Hm, Hlink. simpl. eexists. split; [reflexivity |].
  split; reflexivity.
Qed.

Lemma keyword_any_case_witness :
  exists sig,
    DailyRefresh.entry_signal Sample.world DailyRefresh.shanghai_feed
      Sample.strike_entry = Ok (Some sig) /\
    DailyRefresh.raw_data sig = "http://example.org/3" /\
    DailyRefresh.description sig
    = ("Dock workers " ++ "STRIKE" ++ "") ++ " - "
      ++ default "" (DailyRefresh.entry_summary Sample.strike_entry).
Proof.
  apply (keyword_any_case Sample.world DailyRefresh.shanghai_feed
           Sample.strike_entry "strike" "STRIKE" "Dock workers " ""
           "http://example.org/3").
  - do 5 right. left. reflexivity.
  - reflexivity.
  - reflexivity.
  - reflexivity.
Defined.

Lemma scan_entries_length (W : DailyRefresh.World) (url : string)
    (entries : list DailyRefresh.Entry) :
  forall signals,
    length (DailyRefresh.scan_entries W url entries signals).1
    <= length signals + length entries.
Proof.
  induction entries as [| entry rest IH]; intros signals; simpl; [lia |].
  destruct (DailyRefresh.entry_signal W url entry) as [[s |] | e]; simpl.
  - specialize (IH (signals ++ [s])%list). rewrite length_app in IH.
    simpl in IH. lia.
  - specialize (IH signals). lia.
  - lia.
Qed.

Lemma feed_signals_length (W : DailyRefresh.World) (url : string)
    (signals : list DailyRefresh.SignalRecord) :
  length (DailyRefresh.feed_signals W signals url) <= length signals + 20.
Proof.
  unfold DailyRefresh.feed_signals.
  destruct (DailyRefresh.parse_rss W url) as [entries | e]; [| lia].
  pose proof (scan_entries_length W url (take 20 entries) signals) as H.
  rewrite length_take in H. lia.
Qed.

(** X15.  One run of the adapter returns at most 40 signals: at most 20
    per configured feed, however long the feeds are. *)
Theorem marinetraffic_signals_bound :
  forall (W : DailyRefresh.World) (s : DailyRefresh.State),
  exists sigs s',
    DailyRefresh.parse_marinetraffic_rss W s = (Ok sigs, s') /\
    length sigs <= 40.
Proof.
  intros W s. destruct (parse_marinetraffic_rss_returns W s) as (l & Hret).
  eexists. eexists. split; [exact Hret |].
  unfold DailyRefresh.marinetraffic_signals, DailyRefresh.feeds. simpl.
  pose proof (feed_signals_length W DailyRefresh.shanghai_feed []) as H1.
  pose proof (feed_signals_length W DailyRefresh.los_angeles_feed
                (DailyRefresh.feed_signals W [] DailyRefresh.shanghai_feed))
    as H2.
  simpl in H1. lia.
Qed.

(** X16.  Every signal the adapter returns has source "MarineTraffic"
    and country "Unknown", has a description made of a title, " - " and
    a summary, carries an impact of 15.0 or 25.0, and names the port
    "Shanghai" or "Unknown". *)
Theorem marinetraffic_signal_shape (W : DailyRefresh.World)
    (s s' : DailyRefresh.State)
    (sigs : list DailyRefresh.SignalRecord) (sig : DailyRefresh.SignalRecord) :
  DailyRefresh.parse_marinetraffic_rss W s = (Ok sigs, s') ->
  In sig sigs ->
  DailyRefresh.source sig = "MarineTraffic" /\
  DailyRefresh.country sig = DailyRefresh.Str "Unknown" /\
  (exists t rest, DailyRefresh.description sig = t ++ " - " ++ rest) /\
  (DailyRefresh.impact_score sig = DailyRefresh.Num (Py.Float 15) \/
   DailyRefresh.impact_score sig = DailyRefresh.Num (Py.Float 25)) /\
  (DailyRefresh.port_name sig = DailyRefresh.Str "Shanghai" \/
   DailyRefresh.port_name sig = DailyRefresh.Str "Unknown").
Proof.
  intros Hrun Hin.
  destruct (parse_marinetraffic_rss_returns W s) as (l & Hret).
  rewrite Hret in Hrun. injection Hrun as <- _.
  destruct (marinetraffic_signals_from W sig Hin)
    as (url & entry & (Hurl & _) & He).
  destruct (entry_signal_inv W url entry sig He)
    as (t & raw & _ & _ & _ & ->).
  cbn [DailyRefresh.source DailyRefresh.country
       DailyRefresh.description DailyRefresh.impact_score
       DailyRefresh.port_name].
  split; [reflexivity |]. split; [reflexivity |].
  split; [now exists t, (default "" (DailyRefresh.entry_summary entry)) |].
  split.
  - destruct (Text.contains "congestion" (Text.lower t));
      [now right | now left].
  - destruct Hurl as [<- | [<- | []]]; [now left | now right].
Qed.

Lemma marinetraffic_signal_shape_witness :
  DailyRefresh.source (Sample.strike_signal "Unknown") = "MarineTraffic" /\
  DailyRefresh.country (Sample.strike_signal "Unknown")
  = DailyRefresh.Str "Unknown" /\
  (exists t rest,
      DailyRefresh.description (Sample.strike_signal "Unknown")
      = t ++ " - " ++ rest) /\
  (DailyRefresh.impact_score (Sample.strike_signal "Unknown")
   = DailyRefresh.Num (Py.Float 15) \/
   DailyRefresh.impact_score (Sample.strike_signal "Unknown")
   = DailyRefresh.Num (Py.Float 25)) /\
  (DailyRefresh.port_name (Sample.strike_signal "Unknown")
   = DailyRefresh.Str "Shanghai" \/
   DailyRefresh.port_name (Sample.strike_signal "Unknown")
   = DailyRefresh.Str "Unknown").
Proof.
  apply (marinetraffic_signal_shape Sample.world Sample.start
           (DailyRefresh.parse_marinetraffic_rss Sample.world Sample.start).2
           (DailyRefresh.marinetraffic_signals Sample.world)
           (Sample.strike_signal "Unknown")).
  - reflexivity.
  - do 3 right. left. reflexivity.
Defined.

Lemma scan_entries_app (W : DailyRefresh.World) (url : string)
    (pre rest : list DailyRefresh.Entry) :
  (forall x, In x pre -> exists o, DailyRefresh.entry_signal W url x = Ok o) ->
  forall signals,
    DailyRefresh.scan_entries W url (pre ++ rest) signals
    = DailyRefresh.scan_entries W url rest
        (DailyRefresh.scan_entries W url pre signals).1.
Proof.
  induction pre as [| x pre IH]; intros Hok signals; [reflexivity |].
  destruct (Hok x) as (o & Ho); [now left |].
  simpl. rewrite Ho.
  destruct o as [sig |]; apply IH; intros y Hy; apply Hok; now right.
Qed.

(** X17.  An entry that raises ends the scan of its feed: the feed's
    later entries are not looked at, the signals collected up to that
    entry are kept, the failure is logged for that feed, and the
    adapter goes on.  An entry without a title is such an entry. *)
Theorem scan_feed_stops_at_failing_entry (W : DailyRefresh.World)
    (url : string) (entries pre post : list DailyRefresh.Entry)
    (bad : DailyRefresh.Entry) (e : exn)
    (signals : list DailyRefresh.SignalRecord) (s : DailyRefresh.State) :
  DailyRefresh.parse_rss W url = Ok entries ->
  take 20 entries = (pre ++ bad :: post)%list ->
  (forall x, In x pre -> exists o, DailyRefresh.entry_signal W url x = Ok o) ->
  DailyRefresh.entry_signal W url bad = Raise e ->
  DailyRefresh.scan_feed W url signals s
  = (Ok (DailyRefresh.scan_entries W url pre signals).1,
     {| DailyRefresh.log :=
          DailyRefresh.log s ++ [DailyRefresh.MarineTrafficFailed url e];
        DailyRefresh.table := DailyRefresh.table s |}) /\
  (DailyRefresh.entry_title bad = None -> e = AttributeError "title").
Proof.
  intros Hparse Htake Hok Hbad. split.
  - unfold DailyRefresh.scan_feed. rewrite Hparse, Htake.
    rewrite (scan_entries_app W url pre (bad :: post) Hok signals).
    simpl. rewrite Hbad. reflexivity.
  - intros Hnone. unfold DailyRefresh.entry_signal in Hbad.
    rewrite Hnone in Hbad. simpl in Hbad. now injection Hbad as <-.
Qed.

Lemma scan_feed_stops_at_failing_entry_witness :
  DailyRefresh.scan_feed Sample.world_untitled DailyRefresh.shanghai_feed
    [] Sample.start
  = (Ok (DailyRefresh.scan_entries Sample.world_untitled
           DailyRefresh.shanghai_feed [Sample.congestion_entry] []).1,
     {| DailyRefresh.log :=
          DailyRefresh.log Sample.start ++
          [DailyRefresh.MarineTrafficFailed DailyRefresh.shanghai_feed
             (AttributeError "title")];
        DailyRefresh.table := DailyRefresh.table Sample.start |}) /\
  (DailyRefresh.entry_title Sample.untitled_entry = None ->
   AttributeError "title" = AttributeError "title").
Proof.
  apply (scan_feed_stops_at_failing_entry Sample.world_untitled
           DailyRefresh.shanghai_feed
           [Sample.congestion_entry; Sample.untitled_entry;
            Sample.strike_entry]
           [Sample.congestion_entry] [Sample.strike_entry]
           Sample.untitled_entry (AttributeError "title") [] Sample.start).
  - reflexivity.
  - reflexivity.
  - intros x [<- | []]. eexists. reflexivity.
  - reflexivity.
Defined.

(** ** The job as a whole *)

Lemma scan_feed_log (W : DailyRefresh.World) (url : string)
    (signals : list DailyRefresh.SignalRecord) (s : DailyRefresh.State) :
  exists line,
    DailyRefresh.scan_feed W url signals s
    = (Ok (DailyRefresh.feed_signals W signals url),
       {| DailyRefresh.log := DailyRefresh.log s ++ [line];
          DailyRefresh.table := DailyRefresh.table s |}) /\
    match line with
    | DailyRefresh.MarineTrafficExtracted _ _
    | DailyRefresh.MarineTrafficFailed _ _ => True
    | _ => False
    end.
Proof.
  unfold DailyRefresh.scan_feed, DailyRefresh.feed_signals,
    DailyRefresh.logging.
  unfold mbind, DailyRefresh.M_bind, mret, DailyRefresh.M_ret.
  destruct (DailyRefresh.parse_rss W url) as [entries | e]; simpl.
  - destruct (DailyRefresh.scan_entries W url (take 20 entries) signals)
      as [signals' [[] | e]]; simpl; eexists; split; try reflexivity; exact I.
  - eexists; split; [reflexivity | exact I].
Qed.

Lemma scan_feeds_log (W : DailyRefresh.World) (urls : list string) :
  forall signals s, exists l,
    DailyRefresh.scan_feeds W urls signals s
    = (Ok (foldl (DailyRefresh.feed_signals W) signals urls),
       {| DailyRefresh.log := DailyRefresh.log s ++ l;
          DailyRefresh.table := DailyRefresh.table s |}) /\
    Forall (fun line =>
              match line with
              | DailyRefresh.MarineTrafficExtracted _ _
              | DailyRefresh.MarineTrafficFailed _ _ => True
              | _ => False
              end) l.
Proof.
  induction urls as [| url rest IH]; intros signals s; simpl.
  - exists []. rewrite app_nil_r. split; [now destruct s | constructor].
  - unfold mbind, DailyRefresh.M_bind.
    destruct (scan_feed_log W url signals s) as (line & -> & Hline).
    destruct (IH (DailyRefresh.feed_signals W signals url)
                {| DailyRefresh.log := DailyRefresh.log s ++ [line];
                   DailyRefresh.table := DailyRefresh.table s |})
      as (l & -> & Hl).
    exists (line :: l). simpl. rewrite <- app_assoc.
    split; [reflexivity | now constructor].
Qed.

(** X19.  A run that finds nothing inserts nothing: when the table
    can be created and neither adapter returns anything, the job
    completes whatever the store would answer to an insert, the table
    is unchanged, and no insert count is logged. *)
Theorem daily_refresh_nothing_to_insert (float_repr : Q -> string)
    (G : DailyRefresh.Globals) (W : DailyRefresh.World)
    (s : DailyRefresh.State) :
  DailyRefresh.create_table_outcome W = Ok tt ->
  DailyRefresh.gdelt_records W = [] ->
  DailyRefresh.marinetraffic_signals W = [] ->
  exists lines,
    DailyRefresh.daily_refresh float_repr G W s
    = (Ok tt,
       {| DailyRefresh.log :=
            DailyRefresh.log s ++ lines
            ++ [DailyRefresh.AcledStub; DailyRefresh.RefreshComplete];
          DailyRefresh.table := DailyRefresh.table s |}) /\
    forall n,
      ~ In (DailyRefresh.InsertedGdelt n) lines /\
      ~ In (DailyRefresh.InsertedMarineTraffic n) lines.
Proof.
  intros Hcreate Hrecords Hmt.
  unfold DailyRefresh.daily_refresh, DailyRefresh.lift, DailyRefresh.logging.
  unfold mbind, DailyRefresh.M_bind, mret, DailyRefresh.M_ret.
  rewrite Hcreate. simpl.
  rewrite fetch_gdelt_yesterday_exact, Hrecords. simpl.
  unfold DailyRefresh.parse_marinetraffic_rss.
  match goal with
  | |- context [DailyRefresh.scan_feeds W DailyRefresh.feeds [] ?st] =>
      destruct (scan_feeds_log W DailyRefresh.feeds [] st) as (l & -> & Hl)
  end.
  fold (DailyRefresh.marinetraffic_signals W). rewrite Hmt. simpl.
  match goal with
  | |- context [((DailyRefresh.log s ++ [?a]) ++ [?b; ?c])%list] =>
      exists ([a; b; c] ++ l)%list
  end.
  split.
  - rewrite <- !app_assoc. reflexivity.
  - intros n. rewrite Forall_forall in Hl. split; intros Hin.
    + destruct Hin as [Heq | [Heq | [Heq | Hin]]]; try discriminate.
      * destruct (DailyRefresh.gdelt_export W); discriminate.
      * simpl in Hin. apply list_elem_of_In in Hin. apply (Hl _ Hin).
    + destruct Hin as [Heq | [Heq | [Heq | Hin]]]; try discriminate.
      * destruct (DailyRefresh.gdelt_export W); discriminate.
      * simpl in Hin. apply list_elem_of_In in Hin. apply (Hl _ Hin).
Qed.

Lemma daily_refresh_nothing_to_insert_witness :
  exists lines,
    DailyRefresh.daily_refresh Sample.float_repr DailyRefresh.module_globals
      Sample.world_quiet Sample.start
    = (Ok tt,
       {| DailyRefresh.log :=
            DailyRefresh.log Sample.start ++ lines
            ++ [DailyRefresh.AcledStub; DailyRefresh.RefreshComplete];
          DailyRefresh.table := DailyRefresh.table Sample.start |}) /\
    forall n,
      ~ In (DailyRefresh.InsertedGdelt n) lines /\
      ~ In (DailyRefresh.InsertedMarineTraffic n) lines.
Proof.
  apply (daily_refresh_nothing_to_insert Sample.float_repr
           DailyRefresh.module_globals Sample.world_quiet Sample.start).
  - reflexivity.
  - reflexivity.
  - reflexivity.
Defined.

(** X20.  A failed insert of the MarineTraffic signals leaves the job:
    when the GDELT adapter returned nothing, the feeds returned signals
    and the store refuses them, the job raises the store's error, and
    neither a MarineTraffic insert count nor the completion message is
    logged. *)
Theorem daily_refresh_insert_failure (float_repr : Q -> string)
    (G : DailyRefresh.Globals) (W : DailyRefresh.World)
    (s : DailyRefresh.State) (m : DailyRefresh.SignalRecord)
    (ms : list DailyRefresh.SignalRecord) (e : exn) :
  DailyRefresh.create_table_outcome W = Ok tt ->
  DailyRefresh.gdelt_records W = [] ->
  DailyRefresh.marinetraffic_signals W = m :: ms ->
  DailyRefresh.insert_dataframe W (m :: ms) = Raise e ->
  let run := DailyRefresh.daily_refresh float_repr G W s in
  run.1 = Raise e /\
  exists lines,
    DailyRefresh.log run.2 = (DailyRefresh.log s ++ lines)%list /\
    ~ In DailyRefresh.RefreshComplete lines /\
    forall n, ~ In (DailyRefresh.InsertedMarineTraffic n) lines.
Proof.
  intros Hcreate Hrecords Hmt Hinsert run. subst run.
  unfold DailyRefresh.daily_refresh, DailyRefresh.lift, DailyRefresh.logging,
    DailyRefresh.insert.
  unfold mbind, DailyRefresh.M_bind, mret, DailyRefresh.M_ret.
  rewrite Hcreate. simpl.
  rewrite fetch_gdelt_yesterday_exact, Hrecords. simpl.
  unfold DailyRefresh.parse_marinetraffic_rss.
  match goal with
  | |- context [DailyRefresh.scan_feeds W DailyRefresh.feeds [] ?st] =>
      destruct (scan_feeds_log W DailyRefresh.feeds [] st) as (l & -> & Hl)
  end.
  fold (DailyRefresh.marinetraffic_signals W). rewrite Hmt. simpl.
  rewrite Hinsert. simpl.
  split; [reflexivity |].
  match goal with
  | |- context [((DailyRefresh.log s ++ [?a]) ++ [?b; ?c])%list] =>
      exists ([a; b; c] ++ l)%list
  end.
  split; [rewrite <- !app_assoc; reflexivity |].
  rewrite Forall_forall in Hl.
  split; [| intros n]; intros Hin.
  - destruct Hin as [Heq | [Heq | [Heq | Hin]]]; try discriminate.
    + destruct (DailyRefresh.gdelt_export W); discriminate.
    + simpl in Hin. apply list_elem_of_In in Hin. apply (Hl _ Hin).
  - destruct Hin as [Heq | [Heq | [Heq | Hin]]]; try discriminate.
    + destruct (DailyRefresh.gdelt_export W); discriminate.
    + simpl in Hin. apply list_elem_of_In in Hin. apply (Hl _ Hin).
Qed.

Lemma daily_refresh_insert_failure_witness :
  let run :=
    DailyRefresh.daily_refresh Sample.float_repr DailyRefresh.module_globals
      Sample.world_read_only Sample.start in
  run.1 = Raise (OtherError "read-only") /\
  exists lines,
    DailyRefresh.log run.2 = (DailyRefresh.log Sample.start ++ lines)%list /\
    ~ In DailyRefresh.RefreshComplete lines /\
    forall n, ~ In (DailyRefresh.InsertedMarineTraffic n) lines.
Proof.
  apply (daily_refresh_insert_failure Sample.float_repr
           DailyRefresh.module_globals Sample.world_read_only Sample.start
           (Sample.congestion_signal "Shanghai")
           [Sample.strike_signal "Shanghai";
            Sample.congestion_signal "Unknown";
            Sample.strike_signal "Unknown"]
           (OtherError "read-only")).
  - reflexivity.
  - reflexivity.
  - reflexivity.
  - reflexivity.
Defined.

(** X21.  The link of an entry is read only when the entry matches: an
    entry with a title and no link raises [AttributeError] for [link]
    when a keyword occurs in it, and is passed over without a signal
    when none does. *)
Theorem entry_without_link (W : DailyRefresh.World) (url title : string)
    (entry : DailyRefresh.Entry) :
  DailyRefresh.entry_title entry = Some title ->
  DailyRefresh.entry_link entry = None ->
  ((exists k, In k DailyRefresh.vocabulary /\
              DailyRefresh.keyword_in k entry) ->
   DailyRefresh.entry_signal W url entry = Raise (AttributeError "link")) /\
  ((forall k, In k DailyRefresh.vocabulary ->
              ~ DailyRefresh.keyword_in k entry) ->
   DailyRefresh.entry_signal W url entry = Ok None).
Proof.
  intros Ht Hlink. unfold DailyRefresh.entry_signal.
  rewrite Ht, Hlink. simpl.
  destruct (DailyRefresh.mentions _ _) eqn:Hm; split; try reflexivity.
  - intros Hnone. exfalso.
    apply mentions_spec in Hm. destruct Hm as (k & Hk & Hor).
    apply (Hnone k Hk). now exists title.
  - intros (k & Hk & (t & Ht' & Hor)). exfalso.
    rewrite Ht in Ht'. injection Ht' as <-.
    assert (Hm' : DailyRefresh.mentions (Text.lower title)
                    (Text.lower (default "" (DailyRefresh.entry_summary entry)))
                  = true).
    { apply mentions_spec. now exists k. }
    congruence.
Qed.

Lemma entry_without_link_witness :
  ((exists k, In k DailyRefresh.vocabulary /\
              DailyRefresh.keyword_in k Sample.unlinked_entry) ->
   DailyRefresh.entry_signal Sample.world DailyRefresh.shanghai_feed
     Sample.unlinked_entry = Raise (AttributeError "link")) /\
  ((forall k, In k DailyRefresh.vocabulary ->
              ~ DailyRefresh.keyword_in k Sample.unlinked_entry) ->
   DailyRefresh.entry_signal Sample.world DailyRefresh.shanghai_feed
     Sample.unlinked_entry = Ok None).
Proof.
  apply (entry_without_link Sample.world DailyRefresh.shanghai_feed
           "Blockade at the terminal" Sample.unlinked_entry).
  - reflexivity.
  - reflexivity.
Defined.
